(** * Resume-Bot: the analysis pipeline, embedded and verified

    A shallow embedding of
    - [src/services/pdf_parser.py]      (class [PDFParser]),
    - [src/services/resume_analyzer.py] (class [ResumeAnalyzer]),
    - [src/components/ui_components.py] ([display_score_gauge]),
    - [app.py]                          ([validate_inputs],
      [process_resume_analysis], [main]),
    followed by the properties of the pipeline that its specification states.

    Conventions.
    - A Python [str] is a [string]; one [ascii] stands for one character of
      the text.  What Python decides per character from the Unicode tables
      ([str.isspace], the regex classes [\w] and [\s], [str.lower]) is a
      field of the record [World], so every theorem holds whatever these
      tables are; [Demo] instantiates them for ASCII.
    - A Python [int] is a [Z], a Python [float] is a binary64 [float].
    - A Python exception is the constructor [Raise] carrying [str(e)].
    - The collaborators (PyMuPDF, NLTK, the sentence-embedding model, the chat
      model, the [json] module, the clock) are fields of [World] as well, and
      so are the order in which Python lists a [set] and the display of the
      results, of which only parts are embedded. *)

From Stdlib Require Import ZArith Floats Ascii String.
From stdpp Require Import base option list strings pretty gmap sorting.

Set Warnings "-register-all,-clear-no-such-hyp,-inexact-float".
Local Open Scope string_scope.
Local Open Scope Z_scope.

(** ** Python values *)

(** Outcome of a Python call: a value, or a raised exception with its
    message [str(e)]. *)
Inductive pyresult (A : Type) : Type :=
| Return (a : A)
| Raise (msg : string).
Arguments Return {A} a.
Arguments Raise {A} msg.

(** A Python number. *)
Inductive pynum : Type :=
| PyInt (z : Z)
| PyFloat (f : float).

(** A value built by [json.loads], or a [dict]/[list] literal of the code.
    A [dict] keeps its keys in insertion order. *)
Inductive json : Type :=
| JNull
| JBool (b : bool)
| JNum (n : pynum)
| JStr (s : string)
| JArr (items : list json)
| JObj (fields : list (string * json)).

Definition JInt (z : Z) : json := JNum (PyInt z).
Definition JFloat (f : float) : json := JNum (PyFloat f).
Definition JStrs (l : list string) : json := JArr (JStr <$> l).

(** [d.get(key)] on an association list: the first binding of [key]. *)
Fixpoint assoc_get (key : string) (fields : list (string * json)) : option json :=
  match fields with
  | [] => None
  | (k, v) :: rest => if decide (k = key) then Some v else assoc_get key rest
  end.

(** [key in d] and [d.get(key)] for a value that is a [dict]; [None] when the
    key is absent or the value is not a [dict]. *)
Definition dict_get (key : string) (d : json) : option json :=
  match d with
  | JObj fields => assoc_get key fields
  | _ => None
  end.

Definition dict_has (key : string) (d : json) : bool :=
  bool_decide (is_Some (dict_get key d)).

(** [d.get(key, default)]; on a value that is no dict it is an
    [AttributeError]. *)
Definition py_get (key : string) (dflt : json) (d : json) : pyresult json :=
  match d with
  | JObj fields => Return (default dflt (assoc_get key fields))
  | _ => Raise "object has no attribute 'get'"
  end.

(** ** Characters and strings *)

Definition nl : string := String (Ascii.ascii_of_nat 10) EmptyString.

Definition str_nonempty (s : string) : bool :=
  match s with EmptyString => false | String _ _ => true end.

(** [len(s)] *)
Definition len (s : string) : Z := Z.of_nat (String.length s).

Section Strip.
Variable isspace : ascii → bool.

Fixpoint lstrip (s : string) : string :=
  match s with
  | EmptyString => EmptyString
  | String c s' => if isspace c then lstrip s' else s
  end.

Fixpoint rstrip (s : string) : string :=
  match s with
  | EmptyString => EmptyString
  | String c s' =>
      match rstrip s' with
      | EmptyString => if isspace c then EmptyString else String c EmptyString
      | r => String c r
      end
  end.

(** [s.strip()] *)
Definition strip (s : string) : string := rstrip (lstrip s).

(** [s.split()]: maximal runs of non-whitespace characters.  [cur] is the
    run being read, reversed. *)
Fixpoint split_go (s : string) (cur : list ascii) : list string :=
  let flush (rest : list string) : list string :=
    match cur with
    | [] => rest
    | _ => string_of_list_ascii (rev cur) :: rest
    end in
  match s with
  | EmptyString => flush []
  | String c s' =>
      if isspace c then flush (split_go s' []) else split_go s' (c :: cur)
  end.

Definition split (s : string) : list string := split_go s [].
End Strip.

(** ** Floating point *)

(** [float(z)]: the float nearest to the int [z], ties to even. *)
Definition float_of_Z (z : Z) : float :=
  SF2Prim (binary_normalize prec emax z 0 false).

Definition f0 : float := 0%float.
Definition f100 : float := 100%float.

(** The integer nearest to [num / den] for [den > 0], ties to even. *)
Definition round_half_even (num den : Z) : Z :=
  let q := num / den in
  let r := num mod den in
  match Z.compare (2 * r) den with
  | Lt => q
  | Gt => q + 1
  | Eq => if Z.even q then q else q + 1
  end.

(** The float nearest to [n / d]. *)
Definition float_of_ratio (n : Z) (d : positive) : float :=
  match n with
  | Z0 => 0%float
  | Zpos p =>
      SF2Prim (SFdiv prec emax (S754_finite false p 0) (S754_finite false d 0))
  | Zneg p =>
      SF2Prim (SFdiv prec emax (S754_finite true p 0) (S754_finite false d 0))
  end.

(** [round(x, ndigits)] for a float [x] and [ndigits >= 0]: CPython prints
    [x] correctly rounded (ties to even, on the exact binary value) with
    [ndigits] decimals and reads the decimal back.  A NaN, an infinity, a
    zero or a float that is an integer is returned as it is. *)
Definition py_round (x : float) (ndigits : nat) : float :=
  match Prim2SF x with
  | S754_finite s m e =>
      if 0 <=? e then x
      else
        let scale := Z.to_pos (10 ^ Z.of_nat ndigits) in
        let n := round_half_even (Z.pos m * Z.pos scale) (2 ^ (- e)) in
        let r := float_of_ratio n scale in
        if s then PrimFloat.opp r else r
  | _ => x
  end.

(** ** Exceptions *)

#[export] Instance pyresult_ret : MRet pyresult := λ A a, Return a.
#[export] Instance pyresult_bind : MBind pyresult := λ A B k m,
  match m with
  | Return a => k a
  | Raise msg => Raise msg
  end.

(** [try: body  except Exception as e: handler(str(e))] *)
Definition try_except {A : Type} (body : pyresult A) (handler : string → pyresult A)
  : pyresult A :=
  match body with
  | Return a => Return a
  | Raise msg => handler msg
  end.

(** ** Calls to the chat model

    A computation that may call the chat model takes the list of the prompts
    sent so far and gives back its outcome with the prompts sent by then. *)
Definition Eff (A : Type) : Type := list string → pyresult A * list string.

#[export] Instance Eff_ret : MRet Eff := λ A a log, (Return a, log).
#[export] Instance Eff_bind : MBind Eff := λ A B k m log,
  match m log with
  | (Return a, log') => k a log'
  | (Raise msg, log') => (Raise msg, log')
  end.

(** A computation that calls nothing. *)
Definition lift {A : Type} (r : pyresult A) : Eff A := λ log, (r, log).

(** [try: body  except Exception as e: handler(str(e))] *)
Definition eff_try {A : Type} (body : Eff A) (handler : string → Eff A) : Eff A :=
  λ log,
    match body log with
    | (Return a, log') => (Return a, log')
    | (Raise msg, log') => handler msg log'
    end.

(** ** Python numbers *)

(** [a / b] on two ints (true division), [b] not zero, for ints below 2^53
    in absolute value, which are floats exactly. *)
Definition py_true_div (a b : Z) : float :=
  PrimFloat.div (float_of_Z a) (float_of_Z b).

(** [x * 100] *)
Definition py_times_100 (x : pynum) : pynum :=
  match x with
  | PyInt z => PyInt (z * 100)
  | PyFloat f => PyFloat (PrimFloat.mul f f100)
  end.

(** [round(x, 2)]; an int is returned as it is. *)
Definition py_round2 (x : pynum) : pynum :=
  match x with
  | PyInt z => PyInt z
  | PyFloat f => PyFloat (py_round f 2)
  end.

(** [0 <= x <= 100] *)
Definition in_0_100 (x : pynum) : Prop :=
  match x with
  | PyInt z => 0 ≤ z ≤ 100
  | PyFloat f => PrimFloat.leb f0 f = true ∧ PrimFloat.leb f f100 = true
  end.

(** [x == z] for an int [z] *)
Definition num_eq (x : pynum) (z : Z) : Prop :=
  match x with
  | PyInt k => k = z
  | PyFloat f => PrimFloat.eqb f (float_of_Z z) = true
  end.

(** [a < b]; an int that meets a float is first made a float, which is exact
    below 2^53. *)
Definition py_lt (a b : pynum) : bool :=
  match a, b with
  | PyInt x, PyInt y => x <? y
  | PyInt x, PyFloat y => PrimFloat.ltb (float_of_Z x) y
  | PyFloat x, PyInt y => PrimFloat.ltb x (float_of_Z y)
  | PyFloat x, PyFloat y => PrimFloat.ltb x y
  end.

(** [min(a, b)] and [max(a, b)]: the first argument unless the second is
    strictly smaller (strictly larger). *)
Definition py_min (a b : pynum) : pynum := if py_lt b a then b else a.
Definition py_max (a b : pynum) : pynum := if py_lt a b then b else a.

(** [f"{x:.1f}"]: [x] correctly rounded to one decimal. *)
Definition format_1f (x : float) : string :=
  match Prim2SF x with
  | S754_zero s => if s then "-0.0" else "0.0"
  | S754_infinity s => if s then "-inf" else "inf"
  | S754_nan => "nan"
  | S754_finite s m e =>
      let n :=
        if 0 <=? e then Z.pos m * 2 ^ e * 10
        else round_half_even (Z.pos m * 10) (2 ^ (- e)) in
      (if s then "-" else EmptyString)
        ++ pretty (n / 10) ++ "." ++ pretty (n mod 10)
  end.

(** ** The collaborators *)

(** A PDF opened by PyMuPDF: for each page, what
    [doc.load_page(n).get_text("text")] gives. *)
Definition Document : Type := list (pyresult string).

(** What [json.loads(s)] does: it returns the value, it raises
    [json.JSONDecodeError], or it raises another exception ([RecursionError]
    on deeply nested input, [ValueError] on an integer of more than 4300
    digits), which [except json.JSONDecodeError] does not catch. *)
Inductive loads_outcome : Type :=
| Loaded (value : json)
| JSONDecodeError
| OtherException (msg : string).

Record World : Type := {
  (** [str.isspace] of one character: [str.strip], [str.split], regex [\s] *)
  isspace : ascii → bool;
  (** regex [\w] *)
  isword : ascii → bool;
  (** [str.lower] *)
  lower : string → string;
  (** [fitz.open(stream=pdf_bytes, filetype="pdf")] *)
  fitz_open : list Byte.byte → pyresult Document;
  (** [nltk.tokenize.word_tokenize] *)
  word_tokenize : string → pyresult (list string);
  (** [set(stopwords.words('english'))] *)
  stop_words : gset string;
  (** [SentenceTransformer('all-MiniLM-L6-v2')], [None] when loading it
      failed; applied to the two texts it gives
      [cosine_similarity(encode([a]), encode([b]))[0][0]] as a float. *)
  sentence_model : option (string → string → pyresult float);
  (** [ResumeAnalyzer(api_key)]: building the chat client and loading the
      stop words, which may raise *)
  analyzer_init : string → pyresult ();
  (** [self.llm.invoke([HumanMessage(content=prompt)]).content] *)
  llm_invoke : string → pyresult string;
  (** [json.loads] *)
  json_loads : string → loads_outcome;
  (** [json.dumps] *)
  json_dumps : json → pyresult string;
  (** [float(s)] for a [str] *)
  float_of_str : string → pyresult float;
  (** [datetime.now().isoformat()] *)
  now : string;
  (** [os.getenv("OPENROUTER_API_KEY")], then the Streamlit secret *)
  openrouter_api_key : option string;
  (** [list(set(a) & set(b))] and [list(set(a) - set(b))] for two lists of
      str: the elements of the set, each once, in the order of the set's
      table, which depends on the hash seed of the run. *)
  list_of_and : list string → list string → list string;
  list_of_sub : list string → list string → list string;
  list_of_and_perm : ∀ a b,
    list_of_and a b ≡ₚ elements (list_to_set a ∩ list_to_set b : gset string);
  list_of_sub_perm : ∀ a b,
    list_of_sub a b ≡ₚ elements (list_to_set a ∖ list_to_set b : gset string);
  (** [display_results(results)] of app.py (lines 207-313) for the dict
      [results] of a successful request: it has no handler of its own and may
      raise. *)
  display_results : json → pyresult ();
}.

(** * services/pdf_parser.py *)

Module PDFParser.
Section PDFParser.
Context (w : World).

(** The argument [pdf_file]: a file object (it has [read]) or [bytes].
    Every [read()] of the code is followed by [seek(0)], so a file object is
    its whole content. *)
Inductive pdf_file : Type :=
| FileObject (content : list Byte.byte)
| RawBytes (content : list Byte.byte).

Definition pdf_bytes (f : pdf_file) : list Byte.byte :=
  match f with
  | FileObject content => content
  | RawBytes content => content
  end.

(** The loop over the pages of [extract_text_pymupdf]. *)
Fixpoint read_pages (pages : Document) (text : string) : pyresult string :=
  match pages with
  | [] => Return text
  | page :: rest =>
      page_text ← page;
      if str_nonempty (strip (isspace w) page_text)
      then read_pages rest (text ++ page_text ++ nl ++ nl)
      else read_pages rest text
  end.

Definition extract_text_pymupdf (f : pdf_file) : pyresult string :=
  try_except
    (doc ← fitz_open w (pdf_bytes f);
     text ← read_pages doc EmptyString;
     Return (strip (isspace w) text))
    (λ _, Return EmptyString).

(** The [result] dict of [extract_text]. *)
Record ExtractResult : Type := {
  text : string;
  method_used : string;
  success : bool;
  error : option string;
  page_count : Z;
}.

Definition set_page_count (n : Z) (r : ExtractResult) : ExtractResult :=
  {| text := text r; method_used := method_used r; success := success r;
     error := error r; page_count := n |}.
Definition set_text_success (t : string) (r : ExtractResult) : ExtractResult :=
  {| text := t; method_used := method_used r; success := true;
     error := error r; page_count := page_count r |}.
Definition set_error (e : string) (r : ExtractResult) : ExtractResult :=
  {| text := text r; method_used := method_used r; success := success r;
     error := Some e; page_count := page_count r |}.

(** The [try] block of [extract_text].  It updates the dict in place, so it
    gives back the dict as it is when the block ends or raises. *)
Definition extract_text_try (f : pdf_file) (result : ExtractResult)
  : ExtractResult * pyresult () :=
  match fitz_open w (pdf_bytes f) with
  | Raise msg => (result, Raise msg)
  | Return doc =>
      let result := set_page_count (Z.of_nat (length doc)) result in
      match extract_text_pymupdf f with
      | Raise msg => (result, Raise msg)
      | Return text =>
          if str_nonempty text && (10 <? len (strip (isspace w) text))
          then (set_text_success text result, Return ())
          else (set_error "No text extracted or text too short" result, Return ())
      end
  end.

Definition extract_text (f : pdf_file) : pyresult ExtractResult :=
  let result :=
    {| text := EmptyString; method_used := "pymupdf"; success := false;
       error := None; page_count := 0 |} in
  let '(result, outcome) := extract_text_try f result in
  match outcome with
  | Return _ => Return result
  | Raise msg => Return (set_error msg result)
  end.

(** The [validation] dict of [validate_pdf]. *)
Record Validation : Type := {
  is_valid : bool;
  validation_error : option string;
  file_size : Z;
  validation_page_count : Z;
}.

Definition validate_pdf (f : pdf_file) : pyresult Validation :=
  let size := Z.of_nat (length (pdf_bytes f)) in
  match fitz_open w (pdf_bytes f) with
  | Return doc =>
      Return {| is_valid := true; validation_error := None; file_size := size;
                validation_page_count := Z.of_nat (length doc) |}
  | Raise msg =>
      Return {| is_valid := false;
                validation_error := Some ("Invalid PDF file: " ++ msg);
                file_size := size; validation_page_count := 0 |}
  end.

End PDFParser.
End PDFParser.

(** * services/resume_analyzer.py *)

Module ResumeAnalyzer.

(** ** [collections.Counter] *)

(** [c[x] += 1]: a new key goes last, the keys keep their first-seen order. *)
Fixpoint counter_add (x : string) (c : list (string * Z)) : list (string * Z) :=
  match c with
  | [] => [(x, 1)]
  | (k, n) :: rest =>
      if decide (k = x) then (k, n + 1) :: rest else (k, n) :: counter_add x rest
  end.

(** [Counter(keywords)] *)
Definition Counter (keywords : list string) : list (string * Z) :=
  foldl (λ c x, counter_add x c) [] keywords.

(** [sorted(items, key=itemgetter(1), reverse=True)], which is stable: of two
    items with one count, the one seen first stays first. *)
Fixpoint insert_desc (x : string * Z) (l : list (string * Z)) : list (string * Z) :=
  match l with
  | [] => [x]
  | y :: rest =>
      if y.2 <=? x.2 then x :: y :: rest else y :: insert_desc x rest
  end.

Definition sorted_desc (items : list (string * Z)) : list (string * Z) :=
  foldr insert_desc [] items.

(** [c.most_common(n)] is [heapq.nlargest(n, c.items(), key=itemgetter(1))]:
    the first [n] items of the sorted list, and none when [n <= 0]. *)
Definition most_common (n : Z) (c : list (string * Z)) : list (string * Z) :=
  take (Z.to_nat n) (sorted_desc c).

(** ** [langchain.prompts.PromptTemplate] *)

Inductive piece : Type :=
| Lit (s : string)
| Var (name : string).

Record PromptTemplate : Type := {
  input_variables : list string;
  template : list piece;
}.

Fixpoint kwargs_get (name : string) (kwargs : list (string * string)) : option string :=
  match kwargs with
  | [] => None
  | (k, v) :: rest => if decide (k = name) then Some v else kwargs_get name rest
  end.

Fixpoint format_pieces (ps : list piece) (kwargs : list (string * string))
  : pyresult string :=
  match ps with
  | [] => Return EmptyString
  | Lit s :: rest => tail ← format_pieces rest kwargs; Return (s ++ tail)
  | Var name :: rest =>
      match kwargs_get name kwargs with
      | None => Raise name
      | Some v => tail ← format_pieces rest kwargs; Return (v ++ tail)
      end
  end.

(** [prompt.format] with its keyword arguments; a missing variable is a
    [KeyError]. *)
Definition format (p : PromptTemplate) (kwargs : list (string * string))
  : pyresult string :=
  format_pieces (template p) kwargs.

Definition dq : string := String (Ascii.ascii_of_nat 34) EmptyString.
Definition quoted (segments : list string) : string := String.concat dq segments.
Definition unlines (lines : list string) : string := String.concat nl lines.

(** The two templates of [setup_prompts], line by line. *)
Definition match_analysis_prompt : PromptTemplate := {|
  input_variables := ["resume_text"; "job_description"];
  template := [
    Lit (unlines [
      EmptyString;
      "            You are an expert HR professional and resume analyst. Analyze how well this resume matches the job description.";
      EmptyString;
      "            RESUME:";
      "            "]);
    Var "resume_text";
    Lit (unlines [
      EmptyString;
      EmptyString;
      "            JOB DESCRIPTION:";
      "            "]);
    Var "job_description";
    Lit (unlines [
      EmptyString;
      EmptyString;
      "            Please provide a detailed analysis in JSON format with the following structure:";
      "            {";
      quoted ["                "; "overall_match_score"; ": <integer 0-100>,"];
      quoted ["                "; "strengths"; ": ["; "strength1"; ", "; "strength2"; ", ...],"];
      quoted ["                "; "weaknesses"; ": ["; "weakness1"; ", "; "weakness2"; ", ...],"];
      quoted ["                "; "missing_keywords"; ": ["; "keyword1"; ", "; "keyword2"; ", ...],"];
      quoted ["                "; "recommendations"; ": ["; "recommendation1"; ", "; "recommendation2"; ", ...],"];
      quoted ["                "; "skill_matches"; ": {"];
      quoted ["                    "; "technical_skills"; ": ["; "skill1"; ", "; "skill2"; ", ...],"];
      quoted ["                    "; "soft_skills"; ": ["; "skill1"; ", "; "skill2"; ", ...],"];
      quoted ["                    "; "missing_skills"; ": ["; "skill1"; ", "; "skill2"; ", ...]"];
      "                },";
      quoted ["                "; "experience_analysis"; ": {"];
      quoted ["                    "; "relevant_experience"; ": "; "description"; ","];
      quoted ["                    "; "experience_gaps"; ": "; "description"; ","];
      quoted ["                    "; "years_match"; ": "; "assessment"; EmptyString];
      "                }";
      "            }";
      EmptyString;
      "            Focus on:";
      "            1. Keyword matching between resume and job description";
      "            2. Skills alignment (technical and soft skills)";
      "            3. Experience relevance and level";
      "            4. Education requirements";
      "            5. Specific qualifications mentioned in the job posting";
      "            "])]
|}.

Definition improvement_prompt : PromptTemplate := {|
  input_variables := ["resume_text"; "job_description"; "analysis"];
  template := [
    Lit (unlines [
      EmptyString;
      "            Based on the resume analysis, provide specific, actionable improvement suggestions.";
      EmptyString;
      "            RESUME:";
      "            "]);
    Var "resume_text";
    Lit (unlines [
      EmptyString;
      EmptyString;
      "            JOB DESCRIPTION:";
      "            "]);
    Var "job_description";
    Lit (unlines [
      EmptyString;
      EmptyString;
      "            ANALYSIS:";
      "            "]);
    Var "analysis";
    Lit (unlines [
      EmptyString;
      EmptyString;
      "            Provide improvement suggestions in JSON format:";
      "            {";
      quoted ["                "; "immediate_improvements"; ": ["];
      "                    {";
      quoted ["                        "; "section"; ": "; "section_name"; ","];
      quoted ["                        "; "current_issue"; ": "; "description"; ","];
      quoted ["                        "; "suggested_change"; ": "; "specific_suggestion"; EmptyString];
      "                    }";
      "                ],";
      quoted ["                "; "keyword_optimization"; ": ["];
      "                    {";
      quoted ["                        "; "missing_keyword"; ": "; "keyword"; ","];
      quoted ["                        "; "suggestion"; ": "; "how_to_incorporate"; ","];
      quoted ["                        "; "priority"; ": "; "high/medium/low"; EmptyString];
      "                    }";
      "                ],";
      quoted ["                "; "formatting_suggestions"; ": ["; "suggestion1"; ", "; "suggestion2"; ", ...],"];
      quoted ["                "; "content_enhancements"; ": ["; "enhancement1"; ", "; "enhancement2"; ", ...]"];
      "            }";
      "            ";
      "            Be specific and actionable. Focus on changes that will improve the match score.";
      "            "])]
|}.


(** ** The class [ResumeAnalyzer] *)

Section Analyzer.
Context (w : World).

(** [re.sub(r'[^\w\s]', ' ', s)] *)
Fixpoint sub_nonword (s : string) : string :=
  match s with
  | EmptyString => EmptyString
  | String c s' =>
      String (if isword w c || isspace w c then c else " "%char) (sub_nonword s')
  end.

Definition extract_keywords (text : string) (top_n : Z) : pyresult (list string) :=
  try_except
    (let text := sub_nonword (lower w text) in
     tokens ← try_except (word_tokenize w text)
                         (λ _, Return (split (isspace w) text));
     let keywords :=
       filter (λ word, (word ∉ stop_words w) ∧ (2 < len word)) tokens in
     let keyword_freq := Counter keywords in
     Return (fst <$> most_common top_n keyword_freq))
    (λ _, Return []).

Definition calculate_semantic_similarity (resume_text job_description : string)
  : pyresult float :=
  try_except
    (match sentence_model w with
     | None => Return f0
     | Some model => model resume_text job_description
     end)
    (λ _, Return f0).

Definition _parse_fallback_response (response_text : string) : json :=
  JObj [
    ("overall_match_score", JInt 50);
    ("strengths", JStrs ["Analysis completed"]);
    ("weaknesses", JStrs ["Response parsing issue"]);
    ("missing_keywords", JStrs []);
    ("recommendations", JStrs ["Consider manual review"]);
    ("skill_matches", JObj [
      ("technical_skills", JStrs []);
      ("soft_skills", JStrs []);
      ("missing_skills", JStrs [])]);
    ("experience_analysis", JObj [
      ("relevant_experience", JStr "Analysis incomplete");
      ("experience_gaps", JStr "Unknown");
      ("years_match", JStr "Cannot determine")])].

Definition _parse_fallback_suggestions (response_text : string) : json :=
  JObj [
    ("immediate_improvements", JArr [
      JObj [
        ("section", JStr "General");
        ("current_issue", JStr "Response parsing issue");
        ("suggested_change", JStr "Manual review recommended")]]);
    ("keyword_optimization", JArr []);
    ("formatting_suggestions", JStrs ["Review document formatting"]);
    ("content_enhancements", JStrs ["Consider professional review"])].

Definition _get_timestamp : string := now w.

(** [self.llm.invoke([HumanMessage(content=prompt)])], recorded. *)
Definition invoke (prompt : string) : Eff string :=
  λ log, (llm_invoke w prompt, (log ++ [prompt])%list).

(** Lines 207-212 of [analyze_resume]:
    [try: json.loads(content)  except json.JSONDecodeError: fallback]. *)
Definition parse_ai_analysis (content : string) : pyresult json :=
  match json_loads w content with
  | Loaded value => Return value
  | JSONDecodeError => Return (_parse_fallback_response content)
  | OtherException msg => Raise msg
  end.

(** Lines 219-220: the overlap of the two keyword lists. *)
Definition common_keywords (resume_keywords job_keywords : list string) : gset string :=
  list_to_set resume_keywords ∩ list_to_set job_keywords.

Definition keyword_match_rate (resume_keywords job_keywords : list string) : pynum :=
  match job_keywords with
  | [] => PyInt 0
  | _ :: _ =>
      PyFloat (py_true_div (Z.of_nat (size (common_keywords resume_keywords job_keywords)))
                           (Z.of_nat (length job_keywords)))
  end.

(** Lines 228-234: the dict under ["keyword_analysis"].  A Python [set] has
    no order of its own: [list(s)] lists it in the order of the run. *)
Definition keyword_analysis (resume_keywords job_keywords : list string) : json :=
  JObj [
    ("resume_keywords", JStrs resume_keywords);
    ("job_keywords", JStrs job_keywords);
    ("common_keywords", JStrs (list_of_and w resume_keywords job_keywords));
    ("keyword_match_rate",
      JNum (py_round2 (py_times_100 (keyword_match_rate resume_keywords job_keywords))));
    ("missing_keywords", JStrs (list_of_sub w job_keywords resume_keywords))].

(** Lines 200-203: the prompt of [analyze_resume]. *)
Definition match_prompt (resume_text job_description : string) : pyresult string :=
  format match_analysis_prompt
    [("resume_text", resume_text); ("job_description", job_description)].

(** Lines 243-249: the dict returned by the handler of [analyze_resume]. *)
Definition error_result (msg : string) : json :=
  JObj [
    ("error", JStr msg);
    ("ai_analysis", JObj []);
    ("keyword_analysis", JObj []);
    ("semantic_similarity", JInt 0);
    ("analysis_timestamp", JStr _get_timestamp)].

Definition analyze_resume (resume_text job_description : string) : Eff json :=
  eff_try
    (prompt ← lift (match_prompt resume_text job_description);
     content ← invoke prompt;
     ai_analysis ← lift (parse_ai_analysis content);
     resume_keywords ← lift (extract_keywords resume_text 20);
     job_keywords ← lift (extract_keywords job_description 20);
     semantic_score ← lift (calculate_semantic_similarity resume_text job_description);
     mret (JObj [
       ("ai_analysis", ai_analysis);
       ("keyword_analysis", keyword_analysis resume_keywords job_keywords);
       ("semantic_similarity", JNum (py_round2 (py_times_100 (PyFloat semantic_score))));
       ("analysis_timestamp", JStr _get_timestamp)]))
    (λ msg, mret (error_result msg)).

(** Lines 254-258: the prompt of [get_improvement_suggestions]. *)
Definition suggestions_prompt (resume_text job_description : string) (analysis : json)
  : pyresult string :=
  ai_analysis ← py_get "ai_analysis" (JObj []) analysis;
  dumped ← json_dumps w ai_analysis;
  format improvement_prompt
    [("resume_text", resume_text);
     ("job_description", job_description);
     ("analysis", dumped)].

(** Lines 262-265:
    [try: json.loads(content)  except json.JSONDecodeError: fallback]. *)
Definition parse_suggestions (content : string) : pyresult json :=
  match json_loads w content with
  | Loaded value => Return value
  | JSONDecodeError => Return (_parse_fallback_suggestions content)
  | OtherException msg => Raise msg
  end.

(** Lines 271-276: the dict returned by the handler of
    [get_improvement_suggestions]. *)
Definition empty_suggestions : json :=
  JObj [
    ("immediate_improvements", JArr []);
    ("keyword_optimization", JArr []);
    ("formatting_suggestions", JArr []);
    ("content_enhancements", JArr [])].

Definition get_improvement_suggestions
    (resume_text job_description : string) (analysis : json) : Eff json :=
  eff_try
    (prompt ← lift (suggestions_prompt resume_text job_description analysis);
     content ← invoke prompt;
     suggestions ← lift (parse_suggestions content);
     mret suggestions)
    (λ _, mret empty_suggestions).

End Analyzer.

End ResumeAnalyzer.

(** * components/ui_components.py *)

Module UI.
Section UI.
Context (w : World).

(** [float(score)] *)
Definition py_float (score : json) : pyresult float :=
  match score with
  | JNum (PyFloat f) => Return f
  | JNum (PyInt z) =>
      let f := float_of_Z z in
      if PrimFloat.is_infinity f then Raise "int too large to convert to float"
      else Return f
  | JBool b => Return (if b then 1%float else f0)
  | JStr s => float_of_str w s
  | _ => Raise "float() argument must be a string or a real number"
  end.

(** [display_score_gauge]: the value that the gauge draws,
    [max(0, min(100, float(score)))]. *)
Definition display_score_gauge (score : json) : pyresult pynum :=
  x ← py_float score;
  Return (py_max (PyInt 0) (py_min (PyInt 100) (PyFloat x))).

(** [display_results], the first gauge: it draws
    [analysis.get("ai_analysis", {}).get("overall_match_score", 0)]. *)
Definition overall_score_gauge (analysis : json) : pyresult pynum :=
  ai_analysis ← py_get "ai_analysis" (JObj []) analysis;
  overall_score ← py_get "overall_match_score" (JInt 0) ai_analysis;
  display_score_gauge overall_score.

End UI.
End UI.

(** * utils/config.py and app.py *)

Module App.
Section App.
Context (w : World).

Definition MAX_FILE_SIZE_MB : Z := 10.

(** [Config.get_openrouter_api_key] *)
Definition get_openrouter_api_key : pyresult string :=
  match openrouter_api_key w with
  | Some (String c key) => Return (String c key)
  | _ =>
      Raise ("OpenRouter API key not found. Please set OPENROUTER_API_KEY "
             ++ "environment variable or add it to Streamlit secrets.")
  end.

(** [Config.validate_config]: the pair of ["valid"] and ["issues"]. *)
Definition validate_config : bool * list string :=
  match get_openrouter_api_key with
  | Return _ => (true, [])
  | Raise msg => (false, [msg])
  end.

(** The file handed over by [st.file_uploader]; [size] is the number of its
    bytes. *)
Record UploadedFile : Type := {
  name : string;
  content : list Byte.byte;
}.

Definition size (f : UploadedFile) : Z := Z.of_nat (length (content f)).

(** [s.endswith(suffix)] *)
Definition endswith (s suffix : string) : bool :=
  let n := String.length s in
  let k := String.length suffix in
  bool_decide (substring (n - k) k s = suffix ∧ (k ≤ n)%nat).

(** The message of line 102. *)
Definition job_description_error : string :=
  "Please provide a detailed job description (at least 50 characters).".

Definition validate_inputs (uploaded_file : option UploadedFile)
    (job_description : string) : bool * list string :=
  let errors : list string := [] in
  let errors :=
    match uploaded_file with
    | None => (errors ++ ["Please upload a resume PDF file."])%list
    | Some f =>
        let errors :=
          if negb (endswith (lower w (name f)) ".pdf")
          then (errors ++ ["Please upload a PDF file only."])%list
          else errors in
        let file_size_mb := py_true_div (size f) (1024 * 1024) in
        let too_large : string :=
          "File size (" ++ format_1f file_size_mb
            ++ " MB) exceeds maximum allowed size ("
            ++ pretty MAX_FILE_SIZE_MB ++ " MB)." in
        if py_lt (PyInt MAX_FILE_SIZE_MB) (PyFloat file_size_mb)
        then (errors ++ [too_large])%list
        else errors
    end in
  let errors :=
    if negb (str_nonempty job_description)
       || (len (strip (isspace w) job_description) <? 50)
    then (errors ++ [job_description_error])%list
    else errors in
  (bool_decide (length errors = 0%nat), errors).

(** The dict returned by [process_resume_analysis]. *)
Record FileInfo : Type := {
  info_page_count : Z;
  info_file_size : Z;
  info_method_used : string;
}.

Inductive ProcessResult : Type :=
| Failure (error : string)
| Success (resume_text : string) (analysis suggestions : json) (file_info : FileInfo).

(** [str(analysis_result['error'])] *)
Definition error_text (analysis_result : json) : string :=
  match dict_get "error" analysis_result with
  | Some (JStr msg) => msg
  | _ => EmptyString
  end.

(** The two dicts read with [.get('error', 'Unknown error')] always have the
    key ['error'], so the default of [.get] is never used. *)
Definition process_resume_analysis (uploaded_file : UploadedFile)
    (job_description : string) : Eff ProcessResult :=
  eff_try
    (let config_validation := validate_config in
     if negb config_validation.1
     then mret (Failure ("Configuration error: " ++ String.concat "; " config_validation.2))
     else
       let pdf := PDFParser.FileObject (content uploaded_file) in
       validation ← lift (PDFParser.validate_pdf w pdf);
       if negb (PDFParser.is_valid validation)
       then mret (Failure ("PDF validation failed: "
                           ++ default "None" (PDFParser.validation_error validation)))
       else
         extraction_result ← lift (PDFParser.extract_text w pdf);
         if negb (PDFParser.success extraction_result)
         then mret (Failure ("Text extraction failed: "
                             ++ default "None" (PDFParser.error extraction_result)))
         else
           let resume_text := PDFParser.text extraction_result in
           step3 ← eff_try
             (api_key ← lift get_openrouter_api_key;
              _ ← lift (analyzer_init w api_key);
              analysis_result ← ResumeAnalyzer.analyze_resume w resume_text job_description;
              if dict_has "error" analysis_result
              then mret (inl ("Analysis failed: " ++ error_text analysis_result))
              else mret (inr analysis_result))
             (λ msg, mret (inl ("AI analysis error: " ++ msg)));
           match step3 with
           | inl error => mret (Failure error)
           | inr analysis_result =>
               suggestions ← eff_try
                 (ResumeAnalyzer.get_improvement_suggestions w
                    resume_text job_description analysis_result)
                 (λ _, mret (JObj []));
               mret (Success resume_text analysis_result suggestions
                       {| info_page_count := PDFParser.validation_page_count validation;
                          info_file_size := PDFParser.file_size validation;
                          info_method_used := PDFParser.method_used extraction_result |})
           end)
    (λ msg, mret (Failure ("Processing error: " ++ msg))).

(** The dict of lines 190-200 that a successful request returns. *)
Definition results_dict (resume_text : string) (analysis suggestions : json)
    (file_info : FileInfo) : json :=
  JObj [
    ("success", JBool true);
    ("resume_text", JStr resume_text);
    ("analysis", analysis);
    ("suggestions", suggestions);
    ("file_info", JObj [
      ("page_count", JInt (info_page_count file_info));
      ("file_size", JInt (info_file_size file_info));
      ("method_used", JStr (info_method_used file_info))])].

(** What [main] ends up showing. *)
Inductive Screen : Type :=
| Welcome
| InputErrors (errors : list string)
| AnalysisFailed (error : string)
| Results (results : ProcessResult).

(** [main]: [process_button] is the state of the button "Analyze Resume".
    The results are shown by [display_results], outside any [try]. *)
Definition main (process_button : bool) (uploaded_file : option UploadedFile)
    (job_description : string) : Eff Screen :=
  if negb process_button then mret Welcome
  else
    let '(is_valid, errors) := validate_inputs uploaded_file job_description in
    if negb is_valid then mret (InputErrors errors)
    else
      match uploaded_file with
      | None => mret (InputErrors errors)
      | Some f =>
          results ← process_resume_analysis f job_description;
          match results with
          | Failure error => mret (AnalysisFailed error)
          | Success resume_text analysis suggestions file_info =>
              _ ← lift (display_results w
                          (results_dict resume_text analysis suggestions file_info));
              mret (Results results)
          end
      end.

End App.
End App.

(** * The keyword match rate, tabulated

    [analyze_resume] asks for 20 keywords, so the rate is
    [round(c / j * 100, 2)] with [0 <= c <= j <= 20] and [1 <= j].  There are
    230 such pairs and the checker below evaluates each. *)

Definition rate_of (c j : nat) : float :=
  py_round (PrimFloat.mul (py_true_div (Z.of_nat c) (Z.of_nat j)) f100) 2.

Definition rate_ok (c j : nat) : bool :=
  let r := rate_of c j in
  PrimFloat.leb f0 r && PrimFloat.leb r f100
  && Bool.eqb (PrimFloat.eqb r (float_of_Z 0)) (c =? 0)%nat
  && Bool.eqb (PrimFloat.eqb r (float_of_Z 100)) (c =? j)%nat.

Definition rate_table_ok : bool :=
  forallb (λ j, forallb (λ c, rate_ok c j) (seq 0 (S j))) (seq 1 20).

(** * A concrete world

    The character tables are those of ASCII.  The collaborators are stand-ins
    that behave as the real ones do on the inputs used below: NLTK's
    tokenizer data is missing (so [extract_keywords] takes its
    [text.split()] path), the stop words are an excerpt of NLTK's English
    list, [json.loads] knows the replies that the examples feed it, and the
    PDF reader takes the bytes after the header [%PDF] as the text of a
    single page. *)

Module Demo.

Definition code (c : ascii) : N := N_of_ascii c.

Definition ascii_isspace (c : ascii) : bool :=
  let n := code c in
  ((9 <=? n) && (n <=? 13) || (28 <=? n) && (n <=? 32))%N.

Definition ascii_isword (c : ascii) : bool :=
  let n := code c in
  ((48 <=? n) && (n <=? 57) || (65 <=? n) && (n <=? 90)
   || (n =? 95) || (97 <=? n) && (n <=? 122))%N.

Definition lower_char (c : ascii) : ascii :=
  let n := code c in
  if ((65 <=? n) && (n <=? 90))%N then ascii_of_N (n + 32) else c.

Fixpoint ascii_lower (s : string) : string :=
  match s with
  | EmptyString => EmptyString
  | String c s' => String (lower_char c) (ascii_lower s')
  end.

Definition toy_fitz_open (pdf_bytes : list Byte.byte) : pyresult Document :=
  let s := string_of_list_byte pdf_bytes in
  if String.prefix "%PDF" s
  then Return [Return (substring 4 (String.length s - 4) s)]
  else Raise "Failed to open stream".

Definition pdf (page_text : string) : PDFParser.pdf_file :=
  PDFParser.RawBytes (list_byte_of_string ("%PDF" ++ page_text)).

Definition some_stop_words : gset string :=
  list_to_set ["a"; "an"; "and"; "are"; "as"; "at"; "be"; "for"; "in"; "is";
               "of"; "on"; "or"; "the"; "to"; "with"].

(** A reply with an out-of-range score and most fields absent:
    [{"overall_match_score": 150, "strengths": []}]. *)
Definition reply_150 : string :=
  ResumeAnalyzer.quoted ["{"; "overall_match_score"; ": 150, "; "strengths"; ": []}"].

(** A reply of 5000 opening brackets: [json.loads] gives up on it with a
    [RecursionError]. *)
Definition deep_reply : string := String.concat EmptyString (replicate 5000 "[").

Definition recursion_error : string :=
  "maximum recursion depth exceeded while decoding a JSON array from a unicode string".

(** [json.loads] on the replies used here; ["not json"] is not among them. *)
Definition known_json_loads (content : string) : loads_outcome :=
  if decide (content = reply_150)
  then Loaded (JObj [("overall_match_score", JInt 150); ("strengths", JArr [])])
  else if decide (content = "[]") then Loaded (JArr [])
  else if decide (content = "{}") then Loaded (JObj [])
  else if decide (content = deep_reply) then OtherException recursion_error
  else JSONDecodeError.

(** [type(v).__name__] *)
Definition type_name (v : json) : string :=
  match v with
  | JNull => "NoneType"
  | JBool _ => "bool"
  | JNum (PyInt _) => "int"
  | JNum (PyFloat _) => "float"
  | JStr _ => "str"
  | JArr _ => "list"
  | JObj _ => "dict"
  end.

(** [display_results] in this world: like line 79 of ui_components.py
    ([ai_analysis.get]) it raises on an ["ai_analysis"] that is no dict. *)
Definition toy_display_results (results : json) : pyresult () :=
  match dict_get "analysis" results ≫= dict_get "ai_analysis" with
  | Some (JObj _) | None => Return ()
  | Some v => Raise ("'" ++ type_name v ++ "' object has no attribute 'get'")
  end.

(** [json.dumps] for the values that hold no float (and no character that
    needs an escape): [plain] tells them, [dumps] writes them. *)
Fixpoint plain (value : json) : bool :=
  match value with
  | JNum (PyFloat _) => false
  | JArr items => forallb plain items
  | JObj fields => forallb (λ kv, plain kv.2) fields
  | _ => true
  end.

Fixpoint dumps (value : json) : string :=
  match value with
  | JNull => "null"
  | JBool b => if b then "true" else "false"
  | JNum (PyInt z) => pretty z
  | JNum (PyFloat _) => "NaN"
  | JStr s => ResumeAnalyzer.dq ++ s ++ ResumeAnalyzer.dq
  | JArr items => "[" ++ String.concat ", " (map dumps items) ++ "]"
  | JObj fields =>
      "{" ++ String.concat ", "
               (map (λ kv, ResumeAnalyzer.dq ++ kv.1 ++ ResumeAnalyzer.dq
                           ++ ": " ++ dumps kv.2) fields)
          ++ "}"
  end.

Definition toy_json_dumps (value : json) : pyresult string :=
  if plain value then Return (dumps value)
  else Raise "not serialised in this world".

Definition resume : string :=
  "Experienced Python developer with React and AWS skills".

Definition job : string :=
  "Looking for Python developer with 3 years experience, React, AWS, and Docker knowledge".

(** The prompt that [analyze_resume] sends for two texts. *)
Definition prompt_for (resume_text job_description : string) : string :=
  match ResumeAnalyzer.match_prompt resume_text job_description with
  | Return prompt => prompt
  | Raise _ => EmptyString
  end.

(** The world in which the chat model answers every prompt with [reply]. *)
Definition world (reply : pyresult string) : World := {|
  isspace := ascii_isspace;
  isword := ascii_isword;
  lower := ascii_lower;
  fitz_open := toy_fitz_open;
  word_tokenize := λ _, Raise "Resource punkt not found.";
  stop_words := some_stop_words;
  sentence_model := None;
  analyzer_init := λ _, Return ();
  llm_invoke := λ _, reply;
  json_loads := known_json_loads;
  json_dumps := toy_json_dumps;
  float_of_str := λ _, Raise "could not convert string to float";
  now := "2024-01-01T00:00:00";
  openrouter_api_key := Some "sk-or-demo";
  list_of_and := λ a b, elements (list_to_set a ∩ list_to_set b : gset string);
  list_of_sub := λ a b, elements (list_to_set a ∖ list_to_set b : gset string);
  list_of_and_perm := λ a b, Permutation_refl _;
  list_of_sub_perm := λ a b, Permutation_refl _;
  display_results := toy_display_results;
|}.

(** The model replies [{"overall_match_score": 150, "strengths": []}]. *)
Definition w150 : World := world (Return reply_150).
(** The model replies with text that is not JSON. *)
Definition wbad : World := world (Return "not json").
(** The call to the model fails. *)
Definition wdown : World := world (Raise "Connection error.").
(** The model replies with 5000 opening brackets. *)
Definition wdeep : World := world (Return deep_reply).

Definition cv : App.UploadedFile :=
  {| App.name := "cv.pdf";
     App.content := list_byte_of_string ("%PDF" ++ resume) |}.

End Demo.

(** * More of the code *)

(** ** Effects with a log

    A computation that shows widgets or prints lines takes the list of what
    was put out so far and gives back its outcome with what was put out by
    then. *)
Definition Logged (E A : Type) : Type := list E → pyresult A * list E.

#[export] Instance Logged_ret (E : Type) : MRet (Logged E) :=
  λ A a log, (Return a, log).
#[export] Instance Logged_bind (E : Type) : MBind (Logged E) := λ A B k m log,
  match m log with
  | (Return a, log') => k a log'
  | (Raise msg, log') => (Raise msg, log')
  end.

(** One output. *)
Definition emit {E : Type} (e : E) : Logged E () :=
  λ log, (Return (), (log ++ [e])%list).

(** A computation that puts out nothing. *)
Definition quiet {E A : Type} (r : pyresult A) : Logged E A := λ log, (r, log).

(** [for x in items: body(x)] *)
Fixpoint for_each {E A : Type} (items : list A) (body : A → Logged E ())
  : Logged E () :=
  match items with
  | [] => mret ()
  | x :: rest => _ ← body x; for_each rest body
  end.

(** ** The steps of [extract_keywords], named *)

Module Keywords.
Section Keywords.
Context (w : World).

(** Lines 144-152: the text is cleaned and split into tokens, by NLTK or,
    when NLTK raises, by [text.split()]. *)
Definition tokenize (text : string) : list string :=
  let text := ResumeAnalyzer.sub_nonword w (lower w text) in
  match word_tokenize w text with
  | Return tokens => tokens
  | Raise _ => split (isspace w) text
  end.

(** Lines 155-158: the tokens that are counted. *)
Definition keywords_of (text : string) : list string :=
  filter (λ word, (word ∉ stop_words w) ∧ (2 < len word)) (tokenize text).

End Keywords.

(** [c[k]] for a Counter [c]: the count of [k], and 0 for a missing key. *)
Fixpoint counter_get (k : string) (c : list (string * Z)) : Z :=
  match c with
  | [] => 0
  | (k', n) :: rest => if decide (k' = k) then n else counter_get k rest
  end.

(** How often [k] occurs in [l]. *)
Definition occurrences (k : string) (l : list string) : Z :=
  Z.of_nat (length (filter (λ x, x = k) l)).

(** [a] is listed before [b] in [l]. *)
Definition listed_before {A : Type} (a b : A) (l : list A) : Prop :=
  [a; b] `sublist_of` l.

(** The first occurrence of [a] in [l] comes before every occurrence of [b]. *)
Definition first_before (a b : string) (l : list string) : Prop :=
  ∃ l1 l2, l = (l1 ++ a :: l2)%list ∧ (a ∉ l1) ∧ (b ∉ l1).

(** The order of [sorted]: the larger count first. *)
Definition by_count : relation (string * Z) := λ x y, y.2 ≤ x.2.

(** Every character of [s] satisfies [p]. *)
Fixpoint all_chars (p : ascii → bool) (s : string) : bool :=
  match s with
  | EmptyString => true
  | String c s' => p c && all_chars p s'
  end.

End Keywords.

(** ** The pages of a PDF *)

Module Pages.
Section Pages.
Context (w : World).

(** A page whose text is empty once stripped: [extract_text_pymupdf] skips
    it. *)
Definition blank (page : pyresult string) : bool :=
  match page with
  | Return page_text => negb (str_nonempty (strip (isspace w) page_text))
  | Raise _ => false
  end.

(** The texts of the pages that can be read. *)
Fixpoint readable (pages : Document) : list string :=
  match pages with
  | [] => []
  | Return page_text :: rest => page_text :: readable rest
  | Raise _ :: rest => readable rest
  end.

(** The text that the loop of [extract_text_pymupdf] builds from page texts:
    each page that is not blank, followed by two newlines. *)
Fixpoint joined (texts : list string) : string :=
  match texts with
  | [] => EmptyString
  | page_text :: rest =>
      if str_nonempty (strip (isspace w) page_text)
      then page_text ++ nl ++ nl ++ joined rest
      else joined rest
  end.

Definition raises (page : pyresult string) : bool :=
  match page with
  | Return _ => false
  | Raise _ => true
  end.

End Pages.
End Pages.

(** ** components/ui_components.py, the lists

    A function of the display layer puts out Streamlit widgets, in order (the
    columns they are laid out in are left out).  An f-string is kept as its
    pieces: literal text and interpolated values. *)

Module Display.

Inductive piece : Type :=
| Txt (s : string)
| Str (v : json).

Inductive widget : Type :=
| st_subheader (text : list piece)
| st_info (text : list piece)
| st_success (text : list piece)
| st_warning (text : list piece)
| st_error (text : list piece)
| st_plotly_chart (rows : list (string * json)).

Definition UI (A : Type) : Type := Logged widget A.

(** [bool(v)] *)
Definition py_truthy (v : json) : bool :=
  match v with
  | JNull => false
  | JBool b => b
  | JNum (PyInt z) => negb (z =? 0)
  | JNum (PyFloat f) => negb (PrimFloat.eqb f f0)
  | JStr s => str_nonempty s
  | JArr items => bool_decide (items ≠ [])
  | JObj fields => bool_decide (fields ≠ [])
  end.

Fixpoint chars (s : string) : list json :=
  match s with
  | EmptyString => []
  | String c s' => JStr (String c EmptyString) :: chars s'
  end.

(** [for x in v]: the items of a list, the characters of a str, the keys of
    a dict; anything else is not iterable. *)
Definition py_iter (v : json) : pyresult (list json) :=
  match v with
  | JArr items => Return items
  | JStr s => Return (chars s)
  | JObj fields => Return (JStr <$> fields.*1)
  | _ => Raise "object is not iterable"
  end.

(** [for x in v[:10]]: a list or a str can be sliced. *)
Definition py_first_10 (v : json) : pyresult (list json) :=
  match v with
  | JArr items => Return (take 10 items)
  | JStr s => Return (take 10 (chars s))
  | _ => Raise "object is not subscriptable"
  end.

(** [isinstance(v, dict)] *)
Definition is_dict (v : json) : bool :=
  match v with
  | JObj _ => true
  | _ => false
  end.

(** [{"high": "🔴", "medium": "🟡", "low": "🟢"}.get(priority, "🟡")]; a list
    or a dict cannot be hashed. *)
Definition priority_color (priority : json) : pyresult string :=
  match priority with
  | JStr s =>
      Return (if decide (s = "high") then "🔴"
              else if decide (s = "medium") then "🟡"
              else if decide (s = "low") then "🟢"
              else "🟡")
  | JArr _ | JObj _ => Raise "unhashable type"
  | _ => Return "🟡"
  end.

Section Display.
(** Lines 150-155: the pandas data frame and the plotly bar chart built from
    [keyword_freq.items()]. *)
Context (bar_chart : list (string * json) → pyresult ()).

Definition display_keyword_analysis (analysis : json) : UI () :=
  keyword_analysis ← quiet (py_get "keyword_analysis" (JObj []) analysis);
  if negb (py_truthy keyword_analysis)
  then emit (st_warning [Txt "No keyword analysis data available."])
  else
    _ ← emit (st_subheader [Txt "🎯 Found Keywords"]);
    found_keywords ← quiet (py_get "found_keywords" (JArr []) keyword_analysis);
    _ ← (if py_truthy found_keywords
         then
           top ← quiet (py_first_10 found_keywords);
           for_each top (λ keyword, emit (st_success [Txt "✅ "; Str keyword]))
         else emit (st_info [Txt "No matching keywords found."]));
    _ ← emit (st_subheader [Txt "❌ Missing Keywords"]);
    missing_keywords ← quiet (py_get "missing_keywords" (JArr []) keyword_analysis);
    _ ← (if py_truthy missing_keywords
         then
           top ← quiet (py_first_10 missing_keywords);
           for_each top (λ keyword, emit (st_error [Txt "❌ "; Str keyword]))
         else emit (st_success [Txt "All important keywords found!"]));
    if py_truthy found_keywords
    then
      _ ← emit (st_subheader [Txt "📊 Keyword Frequency"]);
      keyword_freq ← quiet (py_get "keyword_frequency" (JObj []) keyword_analysis);
      if py_truthy keyword_freq
      then
        match keyword_freq with
        | JObj rows => _ ← quiet (bar_chart rows); emit (st_plotly_chart rows)
        | _ => quiet (Raise "object has no attribute 'items'")
        end
      else mret ()
    else mret ().

End Display.

Definition display_recommendations (recommendations : json) : UI () :=
  if negb (py_truthy recommendations)
  then emit (st_info [Txt "No specific recommendations available."])
  else
    _ ← emit (st_subheader [Txt "🎯 AI Recommendations"]);
    items ← quiet (py_iter recommendations);
    for_each (zip (seqZ 1 (Z.of_nat (length items))) items)
      (λ '(i, recommendation),
         emit (st_info [Txt "**"; Str (JInt i); Txt ".** "; Str recommendation])).

(** The body of the loop over [immediate_improvements]. *)
Definition show_improvement (improvement : json) : UI () :=
  if is_dict improvement
  then
    section ← quiet (py_get "section" (JStr "General") improvement);
    issue ← quiet (py_get "current_issue" (JStr EmptyString) improvement);
    change ← quiet (py_get "suggested_change" (JStr EmptyString) improvement);
    emit (st_warning [Txt "**"; Str section; Txt "**: "; Str issue; Txt " → "; Str change])
  else emit (st_warning [Txt "🚀 "; Str improvement]).

(** The body of the loop over [keyword_optimization]. *)
Definition show_keyword_item (keyword_item : json) : UI () :=
  if is_dict keyword_item
  then
    keyword ← quiet (py_get "missing_keyword" (JStr EmptyString) keyword_item);
    suggestion ← quiet (py_get "suggestion" (JStr EmptyString) keyword_item);
    priority ← quiet (py_get "priority" (JStr "medium") keyword_item);
    priority_color ← quiet (priority_color priority);
    emit (st_success [Txt priority_color; Txt " **"; Str keyword; Txt "**: "; Str suggestion])
  else emit (st_success [Txt "🔍 "; Str keyword_item]).

(** One of the four blocks of [display_improvement_suggestions]: the list
    under [key], shown below [title] when it is not empty. *)
Definition show_block (suggestions : json) (key title : string)
    (body : json → UI ()) : UI () :=
  value ← quiet (py_get key (JArr []) suggestions);
  if py_truthy value
  then
    _ ← emit (st_subheader [Txt title]);
    items ← quiet (py_iter value);
    for_each items body
  else mret ().

Definition display_improvement_suggestions (suggestions : json) : UI () :=
  if negb (py_truthy suggestions)
  then emit (st_info [Txt "No improvement suggestions available."])
  else
    _ ← show_block suggestions "immediate_improvements" "🚀 Immediate Improvements"
          show_improvement;
    _ ← show_block suggestions "keyword_optimization" "🔍 Keyword Optimization"
          show_keyword_item;
    _ ← show_block suggestions "formatting_suggestions" "🎨 Formatting Improvements"
          (λ suggestion, emit (st_info [Txt "🎨 "; Str suggestion]));
    show_block suggestions "content_enhancements" "📝 Content Enhancements"
      (λ enhancement, emit (st_warning [Txt "📝 "; Str enhancement])).

End Display.

(** ** run.py *)

Module Run.

(** What [subprocess.run] of the Streamlit server ends with. *)
Inductive run_outcome : Type :=
| Finished
| KeyboardInterrupt
| Failed (msg : string).

(** What [__import__(package)] does: it returns the module, it raises
    [ImportError], or it raises another exception (a package that fails while
    it is loaded), which [except ImportError] does not catch. *)
Inductive import_outcome : Type :=
| Imported
| ImportError
| ImportRaised (msg : string).

#[export] Instance import_outcome_eq_dec : EqDecision import_outcome.
Proof. solve_decision. Defined.

Record Env : Type := {
  (** [__import__(package)] *)
  __import__ : string → import_outcome;
  (** [os.getenv('OPENROUTER_API_KEY')] *)
  getenv_key : option string;
  (** [app_path.exists()] *)
  app_exists : bool;
  (** [str(app_path)] and [sys.executable] *)
  app_path : string;
  executable : string;
  (** [subprocess.run(argv)] *)
  subprocess_run : list string → run_outcome;
}.

Inductive event : Type :=
| Printed (line : string)
| Subprocess (argv : list string).

Definition is_subprocess (e : event) : bool :=
  match e with
  | Subprocess _ => true
  | Printed _ => false
  end.

Section Run.
Context (env : Env).

Definition required_packages : list string :=
  ["streamlit"; "openai"; "langchain"; "PyMuPDF"; "nltk"; "sentence-transformers"].

(** [print(line)]; writing to the standard output is taken to succeed. *)
Definition print (line : string) : Logged event () := emit (Printed line).

(** Lines 19-25: the loop that collects the packages whose import raises
    [ImportError]; another exception leaves the loop and the function. *)
Fixpoint find_missing (packages missing_packages : list string)
  : pyresult (list string) :=
  match packages with
  | [] => Return missing_packages
  | package :: rest =>
      match __import__ env package with
      | Imported => find_missing rest missing_packages
      | ImportError => find_missing rest (missing_packages ++ [package])%list
      | ImportRaised msg => Raise msg
      end
  end.

Definition check_dependencies : Logged event bool :=
  missing_packages ← quiet (find_missing required_packages []);
  match missing_packages with
  | [] => mret true
  | _ :: _ =>
      _ ← print "❌ Missing required packages:";
      _ ← for_each missing_packages (λ package, print ("   - " ++ package));
      _ ← print (nl ++ "💡 Install missing packages with:");
      _ ← print "   pip install -r requirements.txt";
      mret false
  end.

Definition check_environment : Logged event bool :=
  let issues :=
    match getenv_key env with
    | Some (String _ _) => []
    | _ => ["OPENROUTER_API_KEY environment variable not set"]
    end in
  match issues with
  | [] => mret true
  | _ :: _ =>
      _ ← print "⚠️  Environment issues:";
      _ ← for_each issues (λ issue, print ("   - " ++ issue));
      _ ← print (nl ++ "💡 Set up your environment variables:");
      _ ← print "   export OPENROUTER_API_KEY='your-api-key-here'";
      _ ← print "   Or create a .env file with your API key";
      mret false
  end.

(** ["=" * 40] *)
Definition rule : string := String.concat EmptyString (replicate 40 "=").

Definition streamlit_argv : list string :=
  [executable env; "-m"; "streamlit"; "run"; app_path env;
   "--server.headless"; "true"; "--browser.gatherUsageStats"; "false"].

Definition main : Logged event () :=
  _ ← print "🤖 AI Resume Assistant";
  _ ← print rule;
  if negb (app_exists env)
  then print "❌ app.py not found in the current directory"
  else
    _ ← print "🔍 Checking dependencies...";
    dependencies_ok ← check_dependencies;
    if negb dependencies_ok then mret ()
    else
      _ ← print "✅ Dependencies OK";
      _ ← print "🔍 Checking environment...";
      environment_ok ← check_environment;
      _ ← (if negb environment_ok
           then
             _ ← print "⚠️  Warning: Environment issues detected";
             print "   The app may not work properly without proper configuration"
           else print "✅ Environment OK");
      _ ← print (nl ++ "🚀 Starting AI Resume Assistant...");
      _ ← print "   App will open in your default browser";
      _ ← print "   Press Ctrl+C to stop the server";
      _ ← print rule;
      _ ← emit (Subprocess streamlit_argv);
      match subprocess_run env streamlit_argv with
      | Finished => mret ()
      | KeyboardInterrupt => print (nl ++ "👋 AI Resume Assistant stopped")
      | Failed msg => print ("❌ Error starting application: " ++ msg)
      end.

End Run.
End Run.

(** ** More concrete worlds *)

Module Cases.

(** The pieces of [s] between the separators [sep]; [cur] is the piece being
    read, reversed. *)
Fixpoint pieces_go (sep : ascii) (s : string) (cur : list ascii) : list string :=
  match s with
  | EmptyString => [string_of_list_ascii (rev cur)]
  | String c s' =>
      if decide (c = sep)
      then string_of_list_ascii (rev cur) :: pieces_go sep s' []
      else pieces_go sep s' (c :: cur)
  end.

(** A PDF reader for several pages: after the header [%PDF] the pages are
    separated by [|], and a page that starts with [?] cannot be read. *)
Definition paged_fitz_open (pdf_bytes : list Byte.byte) : pyresult Document :=
  let s := string_of_list_byte pdf_bytes in
  if String.prefix "%PDF" s
  then
    Return ((λ page_text : string,
               if String.prefix "?" page_text then Raise "cannot read page"
               else Return page_text)
            <$> pieces_go "|"%char (substring 4 (String.length s - 4) s) [])
  else Raise "Failed to open stream".

(** [Demo.world] with that reader. *)
Definition paged_world (reply : pyresult string) : World :=
  let base := Demo.world reply in
  {| isspace := isspace base;
     isword := isword base;
     lower := lower base;
     fitz_open := paged_fitz_open;
     word_tokenize := word_tokenize base;
     stop_words := stop_words base;
     sentence_model := sentence_model base;
     analyzer_init := analyzer_init base;
     llm_invoke := llm_invoke base;
     json_loads := json_loads base;
     json_dumps := json_dumps base;
     float_of_str := float_of_str base;
     now := now base;
     openrouter_api_key := openrouter_api_key base;
     list_of_and := list_of_and base;
     list_of_sub := list_of_sub base;
     list_of_and_perm := list_of_and_perm base;
     list_of_sub_perm := list_of_sub_perm base;
     display_results := display_results base |}.

End Cases.

(** * Properties *)

(** ** Strings and floats *)

Section StripFacts.
Variable sp : ascii → bool.

Lemma lstrip_shape (s : string) :
  lstrip sp s = EmptyString ∨ ∃ c t, lstrip sp s = String c t ∧ sp c = false.
Proof.
  induction s as [|c s IH]; simpl; [by left|].
  destruct (sp c) eqn:Hc; [done|]. right. by exists c, s.
Qed.

Lemma rstrip_shape (c : ascii) (s : string) :
  rstrip sp (String c s) = EmptyString ∨ ∃ r, rstrip sp (String c s) = String c r.
Proof.
  simpl. destruct (rstrip sp s); [destruct (sp c)|]; eauto.
Qed.

Lemma rstrip_idem (s : string) : rstrip sp (rstrip sp s) = rstrip sp s.
Proof.
  induction s as [|c s IH]; [done|]. simpl.
  destruct (rstrip sp s) as [|d r] eqn:Hr.
  - destruct (sp c) eqn:Hc; [done|]. simpl. by rewrite Hc.
  - change (rstrip sp (String c (String d r))) with
      (match rstrip sp (String d r) with
       | EmptyString => if sp c then EmptyString else String c EmptyString
       | r' => String c r'
       end).
    by rewrite IH.
Qed.

Lemma strip_idem (s : string) : strip sp (strip sp s) = strip sp s.
Proof.
  unfold strip.
  assert (lstrip sp (rstrip sp (lstrip sp s)) = rstrip sp (lstrip sp s)) as ->;
    [|apply rstrip_idem].
  destruct (lstrip_shape s) as [->|(c & t & -> & Hc)]; [done|].
  destruct (rstrip_shape c t) as [->|[r ->]]; [done|].
  simpl. by rewrite Hc.
Qed.

End StripFacts.

Example py_round_examples :
  py_round (PrimFloat.mul (py_true_div 1 3) f100) 2 = 33.33%float ∧
  py_round 2.675%float 2 = 2.67%float ∧
  py_round 0.125%float 2 = 0.12%float ∧
  py_round 0.375%float 2 = 0.38%float ∧
  py_round 2.5%float 0 = 2%float ∧
  py_round (-0.001)%float 2 = (-0)%float ∧
  py_round 1e22%float 2 = 1e22%float.
Proof. vm_compute. by repeat split. Qed.


(** ** PDF text extraction *)

Module PDFParserFacts.
Import PDFParser.
Section Facts.
Context (w : World).

(** [extract_text_pymupdf] swallows every exception, and what it returns is
    already stripped. *)
Lemma extract_text_pymupdf_returns (f : pdf_file) :
  ∃ out, extract_text_pymupdf w f = Return out ∧ strip (isspace w) out = out.
Proof.
  unfold extract_text_pymupdf.
  destruct (fitz_open w (pdf_bytes f)) as [doc|msg]; simpl; [|by exists EmptyString].
  destruct (read_pages w doc EmptyString) as [text|msg]; simpl;
    [|by exists EmptyString].
  eexists; split; [done|]. apply strip_idem.
Qed.

Lemma extract_text_pymupdf_open_fails (f : pdf_file) (msg : string) :
  fitz_open w (pdf_bytes f) = Raise msg → extract_text_pymupdf w f = Return EmptyString.
Proof. unfold extract_text_pymupdf. by intros ->. Qed.

(** What [extract_text] returns, by cases on the extracted text. *)
Lemma extract_text_cases (f : pdf_file) :
  ∃ out r, extract_text_pymupdf w f = Return out ∧ extract_text w f = Return r ∧
    ((10 < len out ∧ success r = true ∧ error r = None ∧ text r = out)
     ∨ (len out ≤ 10 ∧ success r = false ∧ is_Some (error r) ∧ text r = EmptyString)).
Proof.
  destruct (extract_text_pymupdf_returns f) as (out & Hout & Hstrip).
  exists out. unfold extract_text, extract_text_try.
  destruct (fitz_open w (pdf_bytes f)) as [doc|msg] eqn:Hopen.
  - rewrite Hout, Hstrip.
    destruct (str_nonempty out && (10 <? len out)) eqn:Hc.
    + eexists; split; [done|]; split; [done|]. left.
      apply andb_prop in Hc as [_ ?%Z.ltb_lt]. done.
    + eexists; split; [done|]; split; [done|]. right.
      split; [|by eauto].
      apply andb_false_iff in Hc as [Hc|?%Z.ltb_ge]; [|done].
      destruct out; [|done]. unfold len; simpl; lia.
  - eexists; split; [done|]; split; [done|]. right.
    rewrite (extract_text_pymupdf_open_fails _ _ Hopen) in Hout.
    injection Hout as <-. by eauto.
Qed.

(** C5, as the code has it: extraction fails exactly when the stripped text
    has at most 10 characters (so a text of exactly 10 characters fails as
    well, and so does a PDF that cannot be opened, whose text is empty); a
    text of more than 10 characters succeeds and is returned. *)
Theorem extract_text_fails_iff_at_most_10 (f : pdf_file) :
  ∃ out r, extract_text_pymupdf w f = Return out ∧ extract_text w f = Return r ∧
    ((success r = false ∧ is_Some (error r)) ↔ len out ≤ 10) ∧
    (10 < len out → success r = true ∧ text r = out).
Proof.
  destruct (extract_text_cases f) as (out & r & Hout & Hr & H).
  exists out, r. split; [done|]. split; [done|].
  destruct H as [(? & Hs & ? & ?)|(? & Hs & ? & ?)]; rewrite Hs.
  - split; [|done]. split; [by intros [? _]|lia].
  - split; [done|lia].
Qed.

(** C10: [extract_text] always returns a result; [success] holds exactly when
    [error] is [None]; a successful result has a non-empty text and a failed
    one has an error message. *)
Theorem extract_text_success_iff_no_error (f : pdf_file) :
  ∃ r, extract_text w f = Return r ∧
    (success r = true ↔ error r = None) ∧
    (success r = true → text r ≠ EmptyString) ∧
    (success r = false → ∃ msg, error r = Some msg).
Proof.
  destruct (extract_text_cases f) as (out & r & _ & Hr & H).
  exists r. split; [done|].
  destruct H as [(Hlen & Hs & He & Ht)|(_ & Hs & [msg He] & _)];
    rewrite Hs, He.
  - split; [done|]. split; [|done]. intros _. rewrite Ht.
    intros ->. unfold len in Hlen. simpl in Hlen. lia.
  - split; [done|]. split; [done|]. by eauto.
Qed.

End Facts.

(** C5 as stated fails: a PDF whose only page reads [0123456789] gives a
    text of exactly 10 characters, which is not shorter than 10, and yet the
    extraction fails. *)
Lemma extract_text_ten_characters_fail :
  let w := Demo.world (Return "{}") in
  ∃ r, extract_text_pymupdf w (Demo.pdf "0123456789") = Return "0123456789" ∧
    extract_text w (Demo.pdf "0123456789") = Return r ∧
    ¬ (len "0123456789" < 10) ∧
    success r = false ∧ error r = Some "No text extracted or text too short".
Proof.
  eexists. split; [vm_compute; reflexivity|].
  split; [vm_compute; reflexivity|].
  split; [unfold len; simpl; lia|]. split; reflexivity.
Qed.

End PDFParserFacts.

(** ** Counting and ranking keywords *)

Module CounterFacts.
Import ResumeAnalyzer.

Lemma counter_add_keys (x : string) (c : list (string * Z)) :
  (counter_add x c).*1 = if decide (x ∈ c.*1) then c.*1 else (c.*1 ++ [x])%list.
Proof.
  induction c as [|[k n] c IH]; [done|].
  change (counter_add x ((k, n) :: c)) with
    (if decide (k = x) then (k, n + 1) :: c else (k, n) :: counter_add x c).
  rewrite fmap_cons. change ((k, n).1) with k.
  destruct (decide (k = x)) as [->|Hne].
  - rewrite decide_True; [done|]. apply list_elem_of_here.
  - rewrite fmap_cons, IH. change ((k, n).1) with k.
    destruct (decide (x ∈ c.*1)) as [Hin|Hnin].
    + rewrite decide_True; [done|]. by apply list_elem_of_further.
    + rewrite decide_False; [done|]. rewrite elem_of_cons. naive_solver.
Qed.

Lemma counter_add_elem (x k : string) (c : list (string * Z)) :
  k ∈ (counter_add x c).*1 ↔ k = x ∨ k ∈ c.*1.
Proof.
  rewrite counter_add_keys. case_decide; [naive_solver|].
  rewrite elem_of_app, list_elem_of_singleton. naive_solver.
Qed.

Lemma counter_add_NoDup (x : string) (c : list (string * Z)) :
  NoDup c.*1 → NoDup (counter_add x c).*1.
Proof.
  intros Hnd. rewrite counter_add_keys. case_decide; [done|].
  apply NoDup_app. split; [done|]. split; [|apply NoDup_singleton].
  intros y Hy ->%list_elem_of_singleton. done.
Qed.

Lemma foldl_counter_add (l : list string) (c : list (string * Z)) :
  let c' := foldl (λ c x, counter_add x c) c l in
  (NoDup c.*1 → NoDup c'.*1) ∧ ∀ k, k ∈ c'.*1 ↔ k ∈ l ∨ k ∈ c.*1.
Proof.
  revert c. induction l as [|x l IH]; intros c; simpl.
  - split; [done|]. intros k. rewrite elem_of_nil. naive_solver.
  - destruct (IH (counter_add x c)) as [Hnd Hin]. split.
    + intros H. by apply Hnd, counter_add_NoDup.
    + intros k. rewrite Hin, counter_add_elem, elem_of_cons. naive_solver.
Qed.

(** The keys of a Counter are the distinct elements that were counted. *)
Lemma Counter_NoDup (l : list string) : NoDup (Counter l).*1.
Proof. apply (foldl_counter_add l []). constructor. Qed.

Lemma Counter_elem (l : list string) (k : string) : k ∈ (Counter l).*1 ↔ k ∈ l.
Proof.
  unfold Counter. destruct (foldl_counter_add l []) as [_ ->].
  simpl. rewrite elem_of_nil. naive_solver.
Qed.

Lemma insert_desc_perm (x : string * Z) (l : list (string * Z)) :
  insert_desc x l ≡ₚ x :: l.
Proof.
  induction l as [|y l IH]; [done|]. simpl.
  destruct (y.2 <=? x.2); [done|]. rewrite IH. apply Permutation_swap.
Qed.

(** Sorting keeps the items. *)
Lemma sorted_desc_perm (items : list (string * Z)) : sorted_desc items ≡ₚ items.
Proof.
  induction items as [|x l IH]; [done|]. simpl.
  by rewrite insert_desc_perm, IH.
Qed.

Lemma most_common_length (n : Z) (c : list (string * Z)) :
  Z.of_nat (length (most_common n c)) ≤ Z.max 0 n.
Proof. unfold most_common. rewrite length_take. lia. Qed.

Lemma most_common_elem (n : Z) (c : list (string * Z)) (k : string) :
  k ∈ (most_common n c).*1 → k ∈ c.*1.
Proof.
  unfold most_common. intros Hk. rewrite <- (sorted_desc_perm c).
  apply (elem_of_sublist _ _ _ Hk), fmap_sublist, sublist_take.
Qed.

Lemma most_common_NoDup (n : Z) (c : list (string * Z)) :
  NoDup c.*1 → NoDup (most_common n c).*1.
Proof.
  intros Hnd. unfold most_common.
  apply (sublist_NoDup _ (sorted_desc c).*1); [|apply fmap_sublist, sublist_take].
  by rewrite (sorted_desc_perm c).
Qed.

End CounterFacts.

(** ** Keyword extraction *)

Module KeywordFacts.
Import ResumeAnalyzer CounterFacts.
Section Facts.
Context (w : World).

(** [extract_keywords] never raises: it ranks the tokens that pass the
    filter, whichever tokenizer produced them. *)
Lemma extract_keywords_returns (text : string) (top_n : Z) :
  ∃ tokens,
    extract_keywords w text top_n =
      Return (most_common top_n
                (Counter (filter (λ word, (word ∉ stop_words w) ∧ (2 < len word)) tokens))).*1.
Proof.
  unfold extract_keywords.
  destruct (word_tokenize w (sub_nonword w (lower w text))) as [tokens|msg];
    simpl; eauto.
Qed.

Lemma extract_keywords_facts (text : string) (top_n : Z) :
  ∃ kws, extract_keywords w text top_n = Return kws ∧
    Z.of_nat (length kws) ≤ Z.max 0 top_n ∧
    NoDup kws ∧
    ∀ k, k ∈ kws → (k ∉ stop_words w) ∧ 3 ≤ len k.
Proof.
  destruct (extract_keywords_returns text top_n) as [tokens ->].
  eexists; split; [done|]. split; [|split].
  - rewrite length_fmap. apply most_common_length.
  - apply most_common_NoDup, Counter_NoDup.
  - intros k Hk%most_common_elem%Counter_elem%list_elem_of_filter.
    destruct Hk as [[? ?] _]. split; [done|lia].
Qed.

(** C7, as the code has it: for every text and every [top_n],
    [extract_keywords] returns a list (it never raises) of at most
    [max(top_n, 0)] keywords, none of them a stop word and none shorter than
    3 characters. *)
Theorem extract_keywords_bounded_filtered (text : string) (top_n : Z) :
  ∃ kws, extract_keywords w text top_n = Return kws ∧
    Z.of_nat (length kws) ≤ Z.max 0 top_n ∧
    ∀ k, k ∈ kws → (k ∉ stop_words w) ∧ 3 ≤ len k.
Proof.
  destruct (extract_keywords_facts text top_n) as (kws & ? & ? & _ & ?).
  by exists kws.
Qed.

End Facts.

(** C7 as stated fails for a negative [top_n]: the result is empty, and its
    length 0 is not at most [-1]. *)
Lemma extract_keywords_negative_top_n :
  let w := Demo.world (Return "{}") in
  ∃ kws, extract_keywords w "Experienced Python developer" (-1) = Return kws ∧
    ¬ (Z.of_nat (length kws) ≤ -1).
Proof. exists []. split; [vm_compute; reflexivity|simpl; lia]. Qed.

End KeywordFacts.

(** ** The keyword match rate *)

Module RateFacts.
Import ResumeAnalyzer KeywordFacts.

Lemma rate_table_ok_true : rate_table_ok = true.
Proof. vm_compute. reflexivity. Qed.

Lemma rate_ok_all (c j : nat) :
  (1 ≤ j ≤ 20)%nat → (c ≤ j)%nat → rate_ok c j = true.
Proof.
  intros Hj Hc. pose proof rate_table_ok_true as H.
  unfold rate_table_ok in H. rewrite forallb_forall in H.
  specialize (H j). rewrite forallb_forall in H.
  apply H; apply in_seq; lia.
Qed.

(** The rate of the report, for [c] common keywords out of [j]. *)
Lemma rate_of_facts (c j : nat) :
  (1 ≤ j ≤ 20)%nat → (c ≤ j)%nat →
  in_0_100 (PyFloat (rate_of c j)) ∧
  (num_eq (PyFloat (rate_of c j)) 0 ↔ c = 0%nat) ∧
  (num_eq (PyFloat (rate_of c j)) 100 ↔ c = j).
Proof.
  intros Hj Hc. pose proof (rate_ok_all c j Hj Hc) as H.
  unfold rate_ok in H.
  apply andb_prop in H as [H H100]. apply andb_prop in H as [H H0].
  apply andb_prop in H as [Hlo Hhi].
  apply Bool.eqb_prop in H0, H100. simpl. rewrite H0, H100.
  split; [done|]. by rewrite !Nat.eqb_eq.
Qed.

Section Sets.
Implicit Types rk jk : list string.

Lemma common_keywords_size rk jk :
  NoDup jk → (size (common_keywords rk jk) ≤ length jk)%nat.
Proof.
  intros Hnd. rewrite <- (size_list_to_set (C:=gset string) jk Hnd).
  apply subseteq_size. unfold common_keywords. set_solver.
Qed.

Lemma common_keywords_all rk jk :
  NoDup jk →
  size (common_keywords rk jk) = length jk ↔
  (list_to_set jk : gset string) ⊆ list_to_set rk.
Proof.
  intros Hnd. rewrite <- (size_list_to_set (C:=gset string) jk Hnd). split.
  - intros Hsize.
    assert (common_keywords rk jk ≡ list_to_set jk) as Heq.
    { apply set_subseteq_size_equiv; [|lia]. unfold common_keywords. set_solver. }
    unfold common_keywords in Heq. set_solver.
  - intros Hsub. f_equal. unfold common_keywords. set_solver.
Qed.

Lemma common_keywords_none rk jk :
  size (common_keywords rk jk) = 0%nat ↔ common_keywords rk jk = ∅.
Proof. rewrite size_empty_iff. apply leibniz_equiv_iff. Qed.

End Sets.

Section Facts.
Context (w : World).

(** C2, as the code has it: the rate lies in [0,100]; it is the int 0 when
    there are no job keywords; it equals 0 exactly when no job keyword is
    among the resume keywords; and it equals 100 when the job keywords are
    not empty and all of them are resume keywords. *)
Theorem keyword_match_rate_range (resume_text job_description : string) :
  ∃ rk jk rate,
    extract_keywords w resume_text 20 = Return rk ∧
    extract_keywords w job_description 20 = Return jk ∧
    dict_get "keyword_match_rate" (keyword_analysis w rk jk) = Some (JNum rate) ∧
    in_0_100 rate ∧
    (jk = [] → rate = PyInt 0) ∧
    (num_eq rate 0 ↔ common_keywords rk jk = ∅) ∧
    (jk ≠ [] → (list_to_set jk : gset string) ⊆ list_to_set rk → num_eq rate 100).
Proof.
  destruct (extract_keywords_facts w resume_text 20) as (rk & Hrk & _).
  destruct (extract_keywords_facts w job_description 20) as (jk & Hjk & Hlen & Hnd & _).
  exists rk, jk. eexists. do 3 (split; [done|]).
  destruct jk as [|k jk'] eqn:Ejk.
  - simpl. split; [lia|]. split; [done|]. split; [|done].
    split; [intros _|done]. unfold common_keywords. set_solver.
  - rewrite <- Ejk in *.
    assert (1 ≤ length jk ≤ 20)%nat as Hj by (subst jk; simpl in *; lia).
    pose proof (common_keywords_size rk jk Hnd) as Hc.
    destruct (rate_of_facts _ _ Hj Hc) as (Hrange & Hzero & Hfull).
    assert (py_round2 (py_times_100 (keyword_match_rate rk jk))
            = PyFloat (rate_of (size (common_keywords rk jk)) (length jk))) as ->
      by (by subst jk).
    split; [done|]. split; [by subst jk|]. split.
    + by rewrite Hzero, common_keywords_none.
    + intros _ Hsub. by apply Hfull, common_keywords_all.
Qed.

End Facts.

(** C2 as stated fails twice.  A job description made of short words only
    has no keywords: every resume covers them, and the rate is 0, not 100.
    A job description that shares no keyword with the resume has keywords,
    and the rate is 0 all the same. *)
Lemma keyword_match_rate_zero_cases :
  let w := Demo.world (Return "{}") in
  let resume := "Experienced Python developer with React and AWS skills" in
  let job1 := "it is as it is, or is it as it is to be? so be it: it is to be as it is!" in
  let job2 := "Seeking a Java engineer for Kubernetes and Terraform operations work" in
  (∃ rk jk rate,
     extract_keywords w resume 20 = Return rk ∧
     extract_keywords w job1 20 = Return jk ∧
     dict_get "keyword_match_rate" (keyword_analysis w rk jk) = Some (JNum rate) ∧
     (list_to_set jk : gset string) ⊆ list_to_set rk ∧ ¬ num_eq rate 100) ∧
  (∃ rk jk rate,
     extract_keywords w resume 20 = Return rk ∧
     extract_keywords w job2 20 = Return jk ∧
     dict_get "keyword_match_rate" (keyword_analysis w rk jk) = Some (JNum rate) ∧
     num_eq rate 0 ∧ jk ≠ []).
Proof.
  split.
  - do 3 eexists. split; [vm_compute; reflexivity|].
    split; [vm_compute; reflexivity|]. split; [vm_compute; reflexivity|].
    split; [set_solver|]. simpl. lia.
  - do 3 eexists. split; [vm_compute; reflexivity|].
    split; [vm_compute; reflexivity|]. split; [vm_compute; reflexivity|].
    split; [vm_compute; reflexivity|done].
Qed.

End RateFacts.

(** ** The orchestrator *)

Module AnalyzerFacts.
Import ResumeAnalyzer KeywordFacts.
Section Facts.
Context (w : World).

(** Both variables of the template are given, so the prompt is built. *)
Lemma match_prompt_returns (resume_text job_description : string) :
  ∃ prompt, match_prompt resume_text job_description = Return prompt.
Proof. eexists. reflexivity. Qed.

Lemma calculate_semantic_similarity_returns (resume_text job_description : string) :
  ∃ x, calculate_semantic_similarity w resume_text job_description = Return x.
Proof.
  unfold calculate_semantic_similarity.
  destruct (sentence_model w) as [model|]; simpl; [|by eauto].
  destruct (model resume_text job_description); simpl; eauto.
Qed.

(** What the parsing step does with each outcome of [json.loads]. *)
Lemma parse_ai_analysis_cases (content : string) :
  match json_loads w content with
  | Loaded value => parse_ai_analysis w content = Return value
  | JSONDecodeError =>
      parse_ai_analysis w content = Return (_parse_fallback_response EmptyString)
  | OtherException msg => parse_ai_analysis w content = Raise msg
  end.
Proof. unfold parse_ai_analysis. by destruct (json_loads w content). Qed.

(** Once the model has replied and the reply went through the parsing step,
    [analyze_resume] returns the full report: nothing after that can raise. *)
Lemma analyze_resume_replied (resume_text job_description prompt content : string)
    (ai_analysis : json) (log : list string) :
  match_prompt resume_text job_description = Return prompt →
  llm_invoke w prompt = Return content →
  parse_ai_analysis w content = Return ai_analysis →
  ∃ rk jk score,
    extract_keywords w resume_text 20 = Return rk ∧
    extract_keywords w job_description 20 = Return jk ∧
    analyze_resume w resume_text job_description log =
      (Return (JObj [
         ("ai_analysis", ai_analysis);
         ("keyword_analysis", keyword_analysis w rk jk);
         ("semantic_similarity", JNum score);
         ("analysis_timestamp", JStr (now w))]),
       (log ++ [prompt])%list).
Proof.
  intros Hprompt Hreply Hparse.
  destruct (extract_keywords_facts w resume_text 20) as (rk & Hrk & _).
  destruct (extract_keywords_facts w job_description 20) as (jk & Hjk & _).
  destruct (calculate_semantic_similarity_returns resume_text job_description)
    as [x Hx].
  exists rk, jk. eexists. do 2 (split; [done|]).
  unfold analyze_resume, eff_try, mbind, Eff_bind, lift, invoke.
  rewrite Hprompt, Hreply, Hparse, Hrk, Hjk, Hx. reflexivity.
Qed.

(** When [json.loads] raises another exception than [JSONDecodeError], the
    handler of [analyze_resume] builds the error record. *)
Lemma analyze_resume_parse_raised
    (resume_text job_description prompt content msg : string) (log : list string) :
  match_prompt resume_text job_description = Return prompt →
  llm_invoke w prompt = Return content →
  parse_ai_analysis w content = Raise msg →
  analyze_resume w resume_text job_description log =
    (Return (error_result w msg), (log ++ [prompt])%list).
Proof.
  intros Hprompt Hreply Hparse.
  unfold analyze_resume, eff_try, mbind, Eff_bind, lift, invoke.
  by rewrite Hprompt, Hreply, Hparse.
Qed.

(** When the call raises, the handler builds the error record. *)
Lemma analyze_resume_raised (resume_text job_description prompt msg : string)
    (log : list string) :
  match_prompt resume_text job_description = Return prompt →
  llm_invoke w prompt = Raise msg →
  analyze_resume w resume_text job_description log =
    (Return (error_result w msg), (log ++ [prompt])%list).
Proof.
  intros Hprompt Hreply.
  unfold analyze_resume, eff_try, mbind, Eff_bind, lift, invoke.
  by rewrite Hprompt, Hreply.
Qed.

(** [analyze_resume] never raises and sends exactly one prompt, whatever the
    two texts are. *)
Lemma analyze_resume_always_calls (resume_text job_description : string)
    (log : list string) :
  ∃ prompt res,
    match_prompt resume_text job_description = Return prompt ∧
    analyze_resume w resume_text job_description log =
      (Return res, (log ++ [prompt])%list).
Proof.
  destruct (match_prompt_returns resume_text job_description) as [prompt Hp].
  exists prompt. destruct (llm_invoke w prompt) as [content|msg] eqn:Hreply.
  - destruct (parse_ai_analysis w content) as [ai|msg] eqn:Hparse.
    + destruct (analyze_resume_replied _ _ _ _ _ log Hp Hreply Hparse)
        as (rk & jk & score & _ & _ & ->). by eauto.
    + rewrite (analyze_resume_parse_raised _ _ _ _ _ log Hp Hreply Hparse).
      by eauto.
  - rewrite (analyze_resume_raised _ _ _ _ log Hp Hreply). by eauto.
Qed.




(** C3, as the code has it: on the primary path the parsed value is passed
    through unchanged, whether it is an object or not, and a field absent
    from the reply is absent from the result; a reader that uses
    [.get(key, default)] on an object gets the default for it. *)
Theorem parsed_reply_passed_through (content : string) (value : json) :
  json_loads w content = Loaded value →
  parse_ai_analysis w content = Return value ∧
  (∀ key, (ai_analysis ← parse_ai_analysis w content;
           Return (dict_get key ai_analysis)) = Return (dict_get key value)) ∧
  (∀ key dflt fields, value = JObj fields → assoc_get key fields = None →
     (ai_analysis ← parse_ai_analysis w content; py_get key dflt ai_analysis)
       = Return dflt).
Proof.
  intros Hloads. unfold parse_ai_analysis. rewrite Hloads.
  split; [done|]. split; [done|].
  intros key dflt fields -> Hnone. simpl. by rewrite Hnone.
Qed.


(** C6: when the call to the model raises, [analyze_resume] does not raise:
    it returns the record with the message under ["error"], empty
    ["ai_analysis"] and ["keyword_analysis"], and ["semantic_similarity"] 0. *)
Theorem model_call_failure_gives_error_record
    (resume_text job_description prompt msg : string) (log : list string) :
  match_prompt resume_text job_description = Return prompt →
  llm_invoke w prompt = Raise msg →
  ∃ res,
    analyze_resume w resume_text job_description log =
      (Return res, (log ++ [prompt])%list) ∧
    dict_get "error" res = Some (JStr msg) ∧
    dict_get "ai_analysis" res = Some (JObj []) ∧
    dict_get "keyword_analysis" res = Some (JObj []) ∧
    dict_get "semantic_similarity" res = Some (JInt 0).
Proof.
  intros Hp Hreply. rewrite (analyze_resume_raised _ _ _ _ log Hp Hreply).
  eexists. split; [done|]. by repeat split.
Qed.

(** C9, as the code has it: [get_improvement_suggestions] never raises.  When
    building the prompt or calling the model raises, or when [json.loads]
    raises another exception than [json.JSONDecodeError] on the reply, it
    returns the all-empty record.  When the reply parses it returns the parsed
    value, and when [json.loads] raises [json.JSONDecodeError] the fixed record
    of [_parse_fallback_suggestions], which is not empty. *)
Theorem get_improvement_suggestions_total
    (resume_text job_description : string) (analysis : json) (log : list string) :
  ∃ res log',
    get_improvement_suggestions w resume_text job_description analysis log =
      (Return res, log') ∧
    match suggestions_prompt w resume_text job_description analysis with
    | Raise _ => res = empty_suggestions ∧ log' = log
    | Return prompt =>
        log' = (log ++ [prompt])%list ∧
        match llm_invoke w prompt with
        | Raise _ => res = empty_suggestions
        | Return content =>
            match json_loads w content with
            | Loaded value => res = value
            | JSONDecodeError =>
                res = _parse_fallback_suggestions EmptyString ∧
                res ≠ empty_suggestions
            | OtherException _ => res = empty_suggestions
            end
        end
    end.
Proof.
  unfold get_improvement_suggestions, eff_try, mbind, Eff_bind, lift, invoke.
  destruct (suggestions_prompt w resume_text job_description analysis)
    as [prompt|msg]; [|by eauto].
  destruct (llm_invoke w prompt) as [content|msg]; [|by eauto].
  unfold parse_suggestions.
  destruct (json_loads w content); do 2 eexists; (split; [done|]); done.
Qed.

End Facts.
End AnalyzerFacts.

(** ** The application *)

Module AppFacts.
Import ResumeAnalyzer AnalyzerFacts.
Section Facts.
Context (w : World).

(** A job description that is empty, or shorter than 50 characters once
    stripped, does not pass [validate_inputs]. *)
Lemma validate_inputs_short_job_description
    (uploaded_file : option App.UploadedFile) (job_description : string) :
  str_nonempty job_description = false
    ∨ len (strip (isspace w) job_description) < 50 →
  ∃ errors,
    App.validate_inputs w uploaded_file job_description = (false, errors) ∧
    App.job_description_error ∈ errors.
Proof.
  intros H.
  assert (negb (str_nonempty job_description)
          || (len (strip (isspace w) job_description) <? 50) = true) as Hc.
  { destruct H as [->|H]; [done|]. apply orb_true_iff. right. by apply Z.ltb_lt. }
  unfold App.validate_inputs. cbv zeta. rewrite Hc.
  eexists. split.
  - apply f_equal2; [|reflexivity].
    apply bool_decide_eq_false. rewrite length_app. simpl. lia.
  - apply elem_of_app. right. apply list_elem_of_here.
Qed.

(** C8, as the code has it: the check of the job description is made by
    [main] through [validate_inputs], before [process_resume_analysis]; for
    an empty or too short job description [main] shows the input errors and
    sends nothing to the model.  [analyze_resume] itself checks nothing: it
    sends its prompt for every pair of texts. *)
Theorem main_rejects_short_job_description
    (uploaded_file : option App.UploadedFile) (job_description : string)
    (log : list string) :
  str_nonempty job_description = false
    ∨ len (strip (isspace w) job_description) < 50 →
  (∃ errors,
     App.main w true uploaded_file job_description log =
       (Return (App.InputErrors errors), log) ∧
     App.job_description_error ∈ errors) ∧
  (∀ resume_text, ∃ prompt res,
     analyze_resume w resume_text job_description log =
       (Return res, (log ++ [prompt])%list)).
Proof.
  intros H. split.
  - destruct (validate_inputs_short_job_description uploaded_file _ H)
      as (errors & Hv & Hin).
    exists errors. split; [|done].
    unfold App.main. cbn [negb]. by rewrite Hv.
  - intros resume_text.
    destruct (analyze_resume_always_calls w resume_text job_description log)
      as (prompt & res & _ & Hres).
    by eauto.
Qed.

End Facts.
End AppFacts.

(** ** The theorems at concrete inputs *)

Module Examples.
Import ResumeAnalyzer AnalyzerFacts AppFacts.


(** The gauge draws 100 for that record. *)
Example gauge_draws_100_for_150 :
  ∃ res,
    analyze_resume Demo.w150 Demo.resume Demo.job [] =
      (Return res, [Demo.prompt_for Demo.resume Demo.job]) ∧
    UI.overall_score_gauge Demo.w150 res = Return (PyInt 100).
Proof. eexists. split; [vm_compute; reflexivity|]. reflexivity. Qed.


(** C3 as stated fails: the reply has no ["weaknesses"] and no
    ["experience_analysis"], and neither has the ["ai_analysis"] of the
    result; a reply that is a JSON array is accepted as it is. *)
Lemma absent_fields_stay_absent :
  (∃ res ai,
     analyze_resume Demo.w150 Demo.resume Demo.job [] =
       (Return res, [Demo.prompt_for Demo.resume Demo.job]) ∧
     dict_get "ai_analysis" res = Some ai ∧
     dict_get "weaknesses" ai = None ∧
     dict_get "experience_analysis" ai = None) ∧
  (∃ res,
     analyze_resume (Demo.world (Return "[]")) Demo.resume Demo.job [] =
       (Return res, [Demo.prompt_for Demo.resume Demo.job]) ∧
     dict_get "ai_analysis" res = Some (JArr [])).
Proof.
  split.
  - do 2 eexists. split; [vm_compute; reflexivity|]. by repeat split.
  - eexists. split; [vm_compute; reflexivity|]. reflexivity.
Qed.

(** [parsed_reply_passed_through] for the same reply. *)
Lemma parsed_reply_passed_through_witness :
  json_loads Demo.w150 Demo.reply_150 =
    Loaded (JObj [("overall_match_score", JInt 150); ("strengths", JArr [])]) ∧
  parse_ai_analysis Demo.w150 Demo.reply_150 =
    Return (JObj [("overall_match_score", JInt 150); ("strengths", JArr [])]).
Proof.
  split; [reflexivity|].
  apply (parsed_reply_passed_through Demo.w150 Demo.reply_150). reflexivity.
Defined.



(** [model_call_failure_gives_error_record] for a connection error. *)
Lemma model_call_failure_gives_error_record_witness :
  match_prompt Demo.resume Demo.job = Return (Demo.prompt_for Demo.resume Demo.job) ∧
  llm_invoke Demo.wdown (Demo.prompt_for Demo.resume Demo.job) = Raise "Connection error." ∧
  ∃ res,
    analyze_resume Demo.wdown Demo.resume Demo.job [] =
      (Return res, ([] ++ [Demo.prompt_for Demo.resume Demo.job])%list) ∧
    dict_get "error" res = Some (JStr "Connection error.") ∧
    dict_get "ai_analysis" res = Some (JObj []) ∧
    dict_get "keyword_analysis" res = Some (JObj []) ∧
    dict_get "semantic_similarity" res = Some (JInt 0).
Proof.
  split; [reflexivity|]. split; [reflexivity|].
  apply (model_call_failure_gives_error_record Demo.wdown Demo.resume Demo.job
           (Demo.prompt_for Demo.resume Demo.job) "Connection error.");
    reflexivity.
Defined.

(** C8 as stated fails for [analyze_resume]: with an empty job description it
    sends its prompt to the model and returns a report without any error. *)
Lemma analyze_resume_empty_job_description_calls :
  ∃ res,
    analyze_resume Demo.wbad Demo.resume EmptyString [] =
      (Return res, [Demo.prompt_for Demo.resume EmptyString]) ∧
    dict_has "error" res = false.
Proof. eexists. split; [vm_compute; reflexivity|]. reflexivity. Qed.

(** [main_rejects_short_job_description] for the empty job description. *)
Lemma main_rejects_short_job_description_witness :
  (str_nonempty EmptyString = false
     ∨ len (strip (isspace Demo.wbad) EmptyString) < 50) ∧
  ∃ errors,
    App.main Demo.wbad true (Some Demo.cv) EmptyString [] =
      (Return (App.InputErrors errors), []) ∧
    App.job_description_error ∈ errors.
Proof.
  split; [by left|].
  apply (main_rejects_short_job_description Demo.wbad (Some Demo.cv) EmptyString []).
  by left.
Defined.

(** C9 as stated fails: for the reply [not json], on which [json.loads]
    raises [JSONDecodeError], the suggestions are the fallback record, which
    is not the all-empty one. *)
Lemma suggestions_fallback_not_empty :
  ∃ analysis log res items,
    analyze_resume Demo.wbad Demo.resume Demo.job [] = (Return analysis, log) ∧
    (get_improvement_suggestions Demo.wbad Demo.resume Demo.job analysis log).1 =
      Return res ∧
    res ≠ empty_suggestions ∧
    dict_get "immediate_improvements" res = Some (JArr items) ∧
    items ≠ [].
Proof.
  do 4 eexists. split; [vm_compute; reflexivity|].
  split; [vm_compute; reflexivity|]. by repeat split.
Qed.

End Examples.

(** ** The ranking of keywords *)

Module RankingFacts.
Import ResumeAnalyzer CounterFacts Keywords.

Lemma counter_get_add (k x : string) (c : list (string * Z)) :
  counter_get k (counter_add x c) =
    counter_get k c + (if decide (x = k) then 1 else 0).
Proof.
  induction c as [|[k' n] c IH]; simpl.
  - destruct (decide (x = k)); lia.
  - destruct (decide (k' = x)) as [->|Hne]; simpl.
    + destruct (decide (x = k)); lia.
    + destruct (decide (k' = k)) as [->|?]; [|done].
      rewrite decide_False by done. lia.
Qed.

Lemma occurrences_snoc (k x : string) (l : list string) :
  occurrences k (l ++ [x]) = occurrences k l + (if decide (x = k) then 1 else 0).
Proof.
  unfold occurrences. rewrite filter_app, length_app.
  rewrite filter_cons, filter_nil.
  destruct (decide (x = k)); simpl; lia.
Qed.

Lemma Counter_snoc (l : list string) (x : string) :
  Counter (l ++ [x]) = counter_add x (Counter l).
Proof. unfold Counter. by rewrite foldl_snoc. Qed.

(** A Counter holds, for each key, the number of its occurrences. *)
Lemma counter_get_Counter (k : string) (l : list string) :
  counter_get k (Counter l) = occurrences k l.
Proof.
  induction l as [|x l IH] using rev_ind; [done|].
  by rewrite Counter_snoc, counter_get_add, occurrences_snoc, IH.
Qed.

Lemma counter_get_elem (k : string) (n : Z) (c : list (string * Z)) :
  NoDup c.*1 → (k, n) ∈ c → counter_get k c = n.
Proof.
  induction c as [|[k' n'] c IH]; intros Hnd Hin; [by apply elem_of_nil in Hin|].
  apply NoDup_cons in Hnd as [Hk' Hnd]. simpl.
  apply elem_of_cons in Hin as [[= -> ->]|Hin].
  - by rewrite decide_True.
  - destruct (decide (k' = k)) as [->|?]; [|by apply IH].
    destruct Hk'. apply list_elem_of_fmap. by exists (k, n).
Qed.

(** The keys of a Counter are in the order in which they were first seen. *)
Lemma Counter_keys_order (a b : string) (l : list string) :
  listed_before a b (Counter l).*1 → first_before a b l.
Proof.
  unfold listed_before.
  induction l as [|x l IH] using rev_ind; [by intros ?%sublist_nil_r|].
  rewrite Counter_snoc, counter_add_keys. intros Hsub.
  assert (first_before a b l → first_before a b (l ++ [x])) as Hext.
  { intros (l1 & l2 & -> & ? & ?). exists l1, (l2 ++ [x])%list.
    by rewrite <- app_assoc. }
  destruct (decide (x ∈ (Counter l).*1)) as [Hin|Hnin]; [by auto|].
  apply sublist_app_r in Hsub as (s1 & s2 & Hs & Hs1 & Hs2).
  destruct s2 as [|y s2].
  - rewrite app_nil_r in Hs. subst s1. by auto.
  - assert (y = x ∧ s2 = []) as [-> ->].
    { apply sublist_cons_l in Hs2 as (k1 & k2 & Hk & Hs2).
      destruct k1 as [|z k1]; simpl in Hk.
      - injection Hk as -> <-. by apply sublist_nil_r in Hs2.
      - injection Hk as _ Hk. by destruct k1. }
    destruct s1 as [|a' [|a'' s1]]; simpl in Hs;
      [discriminate| |injection Hs as _ _ Hs; by destruct s1].
    injection Hs as <- <-.
    assert (a ∈ l) as Ha.
    { apply Counter_elem. eapply elem_of_sublist; [|done]. apply list_elem_of_here. }
    assert (b ∉ l) as Hb by (by rewrite <- Counter_elem).
    apply list_elem_of_split_l in Ha as (l1 & l2 & -> & Ha).
    exists l1, (l2 ++ [b])%list. rewrite <- app_assoc. split; [done|].
    split; [done|]. intros Hb1. apply Hb, elem_of_app. by left.
Qed.

Lemma insert_desc_sorted (x : string * Z) (l : list (string * Z)) :
  StronglySorted by_count l → StronglySorted by_count (insert_desc x l).
Proof.
  induction 1 as [|y l Hl IH Hy]; simpl; [by repeat constructor|].
  destruct (y.2 <=? x.2) eqn:Hle.
  - apply Z.leb_le in Hle. constructor; [by constructor|].
    constructor; [done|]. eapply Forall_impl; [done|].
    unfold by_count. simpl. intros z ?. lia.
  - apply Z.leb_gt in Hle. constructor; [done|].
    rewrite (insert_desc_perm x l). constructor; [|done].
    unfold by_count. lia.
Qed.

(** The sorted items are in the order of their counts, largest first. *)
Lemma sorted_desc_sorted (items : list (string * Z)) :
  StronglySorted by_count (sorted_desc items).
Proof.
  induction items as [|x l IH]; simpl; [constructor|].
  by apply insert_desc_sorted.
Qed.

Lemma insert_desc_filter (n : Z) (x : string * Z) (l : list (string * Z)) :
  filter (λ y, y.2 = n) (insert_desc x l) = filter (λ y, y.2 = n) (x :: l).
Proof.
  induction l as [|y l IH]; [done|]. simpl.
  destruct (y.2 <=? x.2) eqn:Hle; [done|]. apply Z.leb_gt in Hle.
  rewrite (filter_cons _ y), IH, !filter_cons.
  destruct (decide (x.2 = n)), (decide (y.2 = n)); (done || lia).
Qed.

(** The sort is stable: the items of one count keep their order. *)
Lemma sorted_desc_stable (n : Z) (items : list (string * Z)) :
  filter (λ y, y.2 = n) (sorted_desc items) = filter (λ y, y.2 = n) items.
Proof.
  induction items as [|x l IH]; [done|]. simpl.
  by rewrite insert_desc_filter, !filter_cons, IH.
Qed.

Lemma filter_sublist_mono {A : Type} (P : A → Prop) `{!∀ x, Decision (P x)}
    (l1 l2 : list A) :
  l1 `sublist_of` l2 → filter P l1 `sublist_of` filter P l2.
Proof.
  induction 1 as [|x l1 l2 ? IH|x l1 l2 ? IH]; [constructor| |];
    rewrite ?filter_cons; destruct (decide (P x)); by try constructor.
Qed.

Lemma sorted_pair (x y : string * Z) (l : list (string * Z)) :
  StronglySorted by_count l → listed_before x y l → by_count x y.
Proof.
  unfold listed_before. induction 1 as [|z l Hl IH Hz]; [by intros ?%sublist_nil_r|].
  intros [Hsub|Hsub]%sublist_cons_r; [by auto|].
  destruct Hsub as (k & [= <- <-] & Hk).
  eapply Forall_forall; [done|].
  eapply elem_of_sublist; [|done]. apply list_elem_of_here.
Qed.

Lemma listed_before_fmap_inv (a b : string) (l : list (string * Z)) :
  listed_before a b l.*1 → ∃ n m, listed_before (a, n) (b, m) l.
Proof.
  unfold listed_before. induction l as [|[k n] l IH]; [by intros ?%sublist_nil_r|].
  rewrite fmap_cons. intros [Hsub|Hsub]%sublist_cons_r.
  - destruct (IH Hsub) as (n' & m & ?). exists n', m. by apply sublist_cons.
  - destruct Hsub as (k' & [= <- <-] & Hk). simpl in Hk.
    assert (b ∈ l.*1) as (y & -> & Hy)%list_elem_of_fmap.
    { eapply elem_of_sublist; [|done]. apply list_elem_of_here. }
    exists n, y.2. apply sublist_skip. destruct y as [k m]. simpl.
    apply list_elem_of_split in Hy as (l1 & l2 & ->).
    apply sublist_inserts_l, sublist_skip, sublist_nil_l.
Qed.

Section Facts.
Context (w : World).

(** [extract_keywords] ranks the counted tokens of the text. *)
Lemma extract_keywords_eq (text : string) (top_n : Z) :
  extract_keywords w text top_n =
    Return (most_common top_n (Counter (keywords_of w text))).*1.
Proof.
  unfold extract_keywords, keywords_of, tokenize.
  by destruct (word_tokenize w (sub_nonword w (lower w text))).
Qed.

Lemma most_common_count (top_n : Z) (l : list string) (k : string) (n : Z) :
  (k, n) ∈ sorted_desc (Counter l) → n = occurrences k l.
Proof.
  rewrite sorted_desc_perm. intros Hin.
  rewrite <- counter_get_Counter. symmetry.
  apply counter_get_elem; [apply Counter_NoDup|done].
Qed.

(** X1: every keyword that [extract_keywords] returns is a token of the text
    that passed the filter, and it is returned once. *)
Theorem extract_keywords_distinct (text : string) (top_n : Z) :
  ∃ kws, extract_keywords w text top_n = Return kws ∧
    NoDup kws ∧
    ∀ k, k ∈ kws → k ∈ keywords_of w text ∧ 1 ≤ occurrences k (keywords_of w text).
Proof.
  rewrite extract_keywords_eq. eexists. split; [done|]. split.
  - apply most_common_NoDup, Counter_NoDup.
  - intros k Hk%most_common_elem. apply (proj1 (Counter_elem _ _)) in Hk.
    split; [done|].
    unfold occurrences.
    assert (k ∈ filter (λ x, x = k) (keywords_of w text)) as Hin
      by (by apply list_elem_of_filter).
    destruct (filter (λ x, x = k) (keywords_of w text));
      [by apply elem_of_nil in Hin|simpl; lia].
Qed.

(** X2: the keywords are returned by descending frequency, and of two
    keywords of one frequency the one that occurs first in the text is
    returned first. *)
Theorem extract_keywords_ranked (text : string) (top_n : Z) :
  ∃ kws, extract_keywords w text top_n = Return kws ∧
    ∀ a b, listed_before a b kws →
      occurrences b (keywords_of w text) ≤ occurrences a (keywords_of w text) ∧
      (occurrences a (keywords_of w text) = occurrences b (keywords_of w text) →
       first_before a b (keywords_of w text)).
Proof.
  rewrite extract_keywords_eq. eexists. split; [done|].
  set (K := keywords_of w text). intros a b Hab.
  assert (listed_before a b (sorted_desc (Counter K)).*1) as Hsorted.
  { unfold listed_before in *. etrans; [done|].
    apply fmap_sublist, sublist_take. }
  destruct (listed_before_fmap_inv _ _ _ Hsorted) as (n & m & Hnm).
  assert (n = occurrences a K) as Hn.
  { apply (most_common_count top_n). eapply elem_of_sublist; [|done].
    apply list_elem_of_here. }
  assert (m = occurrences b K) as Hm.
  { apply (most_common_count top_n). eapply elem_of_sublist; [|done].
    apply list_elem_of_further, list_elem_of_here. }
  split.
  - rewrite <- Hn, <- Hm.
    apply (sorted_pair (a, n) (b, m) _ (sorted_desc_sorted _) Hnm).
  - rewrite <- Hn, <- Hm. intros <-.
    apply Counter_keys_order. unfold listed_before in *.
    change [a; b] with ([(a, n); (b, n)].*1). apply fmap_sublist.
    assert (filter (λ y : string * Z, y.2 = n) [(a, n); (b, n)] = [(a, n); (b, n)])
      as <- by (rewrite !filter_cons, !decide_True by done; done).
    etrans; [|apply (sublist_filter (λ y : string * Z, y.2 = n))].
    rewrite <- (sorted_desc_stable n (Counter K)).
    by apply (filter_sublist_mono (λ y : string * Z, y.2 = n)).
Qed.

(** X3: a counted token is left out only when the list is full, and then it
    is no more frequent than any keyword that is returned. *)
Theorem extract_keywords_keeps_most_frequent (text : string) (top_n : Z) :
  ∃ kws, extract_keywords w text top_n = Return kws ∧
    ∀ k, k ∈ keywords_of w text → k ∉ kws →
      Z.of_nat (length kws) = Z.max 0 top_n ∧
      ∀ a, a ∈ kws →
        occurrences k (keywords_of w text) ≤ occurrences a (keywords_of w text).
Proof.
  rewrite extract_keywords_eq. eexists. split; [done|].
  set (K := keywords_of w text). unfold most_common.
  set (S := sorted_desc (Counter K)). set (n := Z.to_nat top_n).
  intros k Hk Hout.
  assert (k ∈ S.*1) as ([k' fk] & [= <-] & Hin)%list_elem_of_fmap.
  { unfold S. rewrite (sorted_desc_perm (Counter K)). by apply Counter_elem. }
  assert ((k, fk) ∈ drop n S) as Hdrop.
  { rewrite <- (take_drop n S) in Hin. apply elem_of_app in Hin as [Hin|]; [|done].
    destruct Hout. apply list_elem_of_fmap. by exists (k, fk). }
  split.
  - rewrite length_fmap, length_take.
    assert (n < length S)%nat; [|lia].
    destruct (decide (n < length S)%nat) as [|Hge]; [done|].
    rewrite drop_ge in Hdrop by lia. by apply elem_of_nil in Hdrop.
  - intros a ([a' fa] & [= <-] & Ha)%list_elem_of_fmap.
    assert (listed_before (a, fa) (k, fk) S) as Hpair.
    { unfold listed_before. rewrite <- (take_drop n S).
      apply (sublist_app [(a, fa)] (take n S) [(k, fk)] (drop n S)).
      - apply list_elem_of_split in Ha as (l1 & l2 & ->).
        apply sublist_inserts_l, sublist_skip, sublist_nil_l.
      - apply list_elem_of_split in Hdrop as (l1 & l2 & ->).
        apply sublist_inserts_l, sublist_skip, sublist_nil_l. }
    rewrite <- (most_common_count top_n K k fk Hin).
    rewrite <- (most_common_count top_n K a fa).
    + apply (sorted_pair (a, fa) (k, fk) _ (sorted_desc_sorted _) Hpair).
    + eapply elem_of_sublist; [done|]. apply sublist_take.
Qed.

(** X4: asking for fewer keywords gives the first ones of the longer list. *)
Theorem extract_keywords_prefix (text : string) (m n : Z) :
  m ≤ n →
  ∃ kws, extract_keywords w text n = Return kws ∧
    extract_keywords w text m = Return (take (Z.to_nat m) kws).
Proof.
  intros Hmn. rewrite !extract_keywords_eq. eexists. split; [done|].
  unfold most_common. rewrite <- fmap_take, take_take.
  by replace (Z.to_nat m `min` Z.to_nat n)%nat with (Z.to_nat m) by lia.
Qed.

End Facts.
End RankingFacts.

(** ** The tokens of the split path *)

Module SplitFacts.
Import ResumeAnalyzer Keywords CounterFacts RankingFacts.

Lemma all_chars_of_list (p : ascii → bool) (l : list ascii) :
  all_chars p (string_of_list_ascii l) = forallb p l.
Proof. induction l as [|c l IH]; simpl; [done|]. by rewrite IH. Qed.

Lemma forallb_rev (p : ascii → bool) (l : list ascii) :
  forallb p (rev l) = forallb p l.
Proof.
  induction l as [|c l IH]; simpl; [done|].
  rewrite forallb_app, IH. simpl. rewrite andb_true_r. apply andb_comm.
Qed.

(** The tokens of [text.split()] are made of the characters of the text that
    are not whitespace. *)
Lemma split_go_all (sp p : ascii → bool) (s : string) (cur : list ascii) :
  forallb p cur = true →
  all_chars (λ c, sp c || p c) s = true →
  Forall (λ token, all_chars p token = true) (split_go sp s cur).
Proof.
  revert cur. induction s as [|c s IH]; intros cur Hcur Hs; simpl.
  - destruct cur; [constructor|]. constructor; [|constructor].
    by rewrite all_chars_of_list, forallb_rev.
  - simpl in Hs. apply andb_prop in Hs as [Hc Hs].
    destruct (sp c) eqn:Hsp.
    + destruct cur; [by apply IH|]. constructor; [|by apply IH].
      by rewrite all_chars_of_list, forallb_rev.
    + apply IH; [|done]. simpl. by rewrite Hcur, andb_true_r.
Qed.

Section Facts.
Context (w : World).

(** After [re.sub] every character is a word character or whitespace,
    provided that the space is whitespace. *)
Lemma sub_nonword_chars (s : string) :
  isspace w " "%char = true →
  all_chars (λ c, isspace w c || isword w c) (sub_nonword w s) = true.
Proof.
  intros Hsp. induction s as [|c s IH]; simpl; [done|]. rewrite IH, andb_true_r.
  destruct (isword w c) eqn:Hw; simpl; [by rewrite Hw, orb_true_r|].
  destruct (isspace w c) eqn:Hc; simpl; [by rewrite Hc|by rewrite Hsp].
Qed.

(** X5: when NLTK's tokenizer raises, the keywords come from [text.split()]
    on the cleaned text, so they are made of word characters only: no
    punctuation and no whitespace is ever part of a keyword. *)
Theorem split_path_keywords_are_words (text msg : string) (top_n : Z) :
  isspace w " "%char = true →
  word_tokenize w (sub_nonword w (lower w text)) = Raise msg →
  ∃ kws, extract_keywords w text top_n = Return kws ∧
    ∀ k, k ∈ kws → all_chars (isword w) k = true.
Proof.
  intros Hsp Htok. rewrite extract_keywords_eq. eexists. split; [done|].
  intros k Hk%most_common_elem. apply (proj1 (Counter_elem _ _)) in Hk.
  apply list_elem_of_filter in Hk as [_ Hk].
  unfold tokenize in Hk. rewrite Htok in Hk.
  assert (Forall (λ token, all_chars (isword w) token = true)
            (split (isspace w) (sub_nonword w (lower w text)))) as Hall.
  { apply split_go_all; [done|]. by apply sub_nonword_chars. }
  rewrite Forall_forall in Hall. by apply Hall.
Qed.

End Facts.
End SplitFacts.

(** ** The keyword lists of the report *)

Module ReportFacts.
Import ResumeAnalyzer KeywordFacts.
Section Facts.
Context (w : World).

(** X6: in the keyword analysis of a report, a job keyword is listed under
    ["common_keywords"] when it is a resume keyword and under
    ["missing_keywords"] when it is not: the two lists have no keyword in
    common, hold none twice, and together they have as many keywords as
    ["job_keywords"]. *)
Theorem keyword_report_partition (resume_text job_description : string) :
  ∃ rk jk common missing,
    extract_keywords w resume_text 20 = Return rk ∧
    extract_keywords w job_description 20 = Return jk ∧
    dict_get "common_keywords" (keyword_analysis w rk jk) = Some (JStrs common) ∧
    dict_get "missing_keywords" (keyword_analysis w rk jk) = Some (JStrs missing) ∧
    (∀ k, k ∈ common ↔ k ∈ jk ∧ k ∈ rk) ∧
    (∀ k, k ∈ missing ↔ k ∈ jk ∧ k ∉ rk) ∧
    NoDup common ∧ NoDup missing ∧
    (length common + length missing = length jk)%nat.
Proof.
  destruct (extract_keywords_facts w resume_text 20) as (rk & Hrk & _).
  destruct (extract_keywords_facts w job_description 20) as (jk & Hjk & _ & Hnd & _).
  exists rk, jk. do 2 eexists. do 4 (split; [done|]).
  pose proof (list_of_and_perm w rk jk) as Hand.
  pose proof (list_of_sub_perm w jk rk) as Hsub.
  set (R := list_to_set rk : gset string) in *.
  set (J := list_to_set jk : gset string) in *.
  split; [|split; [|split; [|split]]].
  - intros k. rewrite Hand, elem_of_elements. unfold R, J. set_solver.
  - intros k. rewrite Hsub, elem_of_elements. unfold R, J. set_solver.
  - rewrite Hand. apply NoDup_elements.
  - rewrite Hsub. apply NoDup_elements.
  - rewrite Hand, Hsub.
    rewrite <- (size_list_to_set (C:=gset string) jk Hnd). fold J.
    change (length (elements (R ∩ J))) with (size (R ∩ J)).
    change (length (elements (J ∖ R))) with (size (J ∖ R)).
    rewrite <- size_union by set_solver. f_equal.
    apply set_eq. intros k. destruct (decide (k ∈ R)); set_solver.
Qed.

End Facts.
End ReportFacts.

(** ** More on the orchestrator *)

Module OrchestratorFacts.
Import ResumeAnalyzer KeywordFacts AnalyzerFacts.

Lemma append_empty (s : string) : s ++ EmptyString = s.
Proof.
  induction s as [|c s IH]; [done|].
  change (String c (s ++ EmptyString) = String c s). by f_equal.
Qed.

(** Formatting a template of three texts around two variables. *)
Lemma format_pieces_2 (a b c x y r j : string) :
  x ≠ y →
  format_pieces [Lit a; Var x; Lit b; Var y; Lit c] [(x, r); (y, j)] =
    Return (a ++ r ++ b ++ j ++ c).
Proof.
  intros Hxy. cbn [format_pieces kwargs_get].
  repeat case_decide; try congruence.
  cbn [mbind pyresult_bind]. by rewrite append_empty.
Qed.

(** Formatting a template of four texts around three variables. *)
Lemma format_pieces_3 (a b c d x y z r j t : string) :
  x ≠ y → x ≠ z → y ≠ z →
  format_pieces [Lit a; Var x; Lit b; Var y; Lit c; Var z; Lit d]
                [(x, r); (y, j); (z, t)] =
    Return (a ++ r ++ b ++ j ++ c ++ t ++ d).
Proof.
  intros Hxy Hxz Hyz. cbn [format_pieces kwargs_get].
  repeat case_decide; try congruence.
  cbn [mbind pyresult_bind]. by rewrite append_empty.
Qed.

Section Facts.
Context (w : World).

(** The report of [analyze_resume] after a reply, in full. *)
Lemma analyze_resume_report (resume_text job_description prompt content : string)
    (ai_analysis : json) (log : list string) :
  match_prompt resume_text job_description = Return prompt →
  llm_invoke w prompt = Return content →
  parse_ai_analysis w content = Return ai_analysis →
  ∃ rk jk x,
    extract_keywords w resume_text 20 = Return rk ∧
    extract_keywords w job_description 20 = Return jk ∧
    calculate_semantic_similarity w resume_text job_description = Return x ∧
    analyze_resume w resume_text job_description log =
      (Return (JObj [
         ("ai_analysis", ai_analysis);
         ("keyword_analysis", keyword_analysis w rk jk);
         ("semantic_similarity", JNum (py_round2 (py_times_100 (PyFloat x))));
         ("analysis_timestamp", JStr (now w))]),
       (log ++ [prompt])%list).
Proof.
  intros Hprompt Hreply Hparse.
  destruct (extract_keywords_facts w resume_text 20) as (rk & Hrk & _).
  destruct (extract_keywords_facts w job_description 20) as (jk & Hjk & _).
  destruct (calculate_semantic_similarity_returns w resume_text job_description)
    as [x Hx].
  exists rk, jk, x. do 3 (split; [done|]).
  unfold analyze_resume, eff_try, mbind, Eff_bind, lift, invoke.
  rewrite Hprompt, Hreply, Hparse, Hrk, Hjk, Hx. reflexivity.
Qed.

(** The parsing step returns unless [json.loads] raises another exception
    than [JSONDecodeError]. *)
Lemma parse_ai_analysis_returns (content : string) :
  (∀ msg, json_loads w content ≠ OtherException msg) →
  ∃ ai_analysis, parse_ai_analysis w content = Return ai_analysis.
Proof.
  intros Hno. unfold parse_ai_analysis.
  destruct (json_loads w content) as [value| |msg]; [by eauto..|].
  by destruct (Hno msg).
Qed.

(** X7: [analyze_resume] never raises and sends one prompt; its record has
    the key ["error"] exactly when the call to the model raised, or the model
    replied and [json.loads] raised another exception than [JSONDecodeError]
    on the reply. *)
Theorem error_tag_iff_call_or_parse_raised (resume_text job_description : string)
    (log : list string) :
  ∃ prompt res,
    match_prompt resume_text job_description = Return prompt ∧
    analyze_resume w resume_text job_description log =
      (Return res, (log ++ [prompt])%list) ∧
    (dict_has "error" res = true ↔
       (∃ msg, llm_invoke w prompt = Raise msg)
       ∨ (∃ content msg, llm_invoke w prompt = Return content
                         ∧ json_loads w content = OtherException msg)).
Proof.
  destruct (match_prompt_returns resume_text job_description) as [prompt Hp].
  exists prompt. destruct (llm_invoke w prompt) as [content|msg] eqn:Hreply.
  - pose proof (parse_ai_analysis_cases w content) as Hparse.
    destruct (json_loads w content) as [value| |msg] eqn:Hloads.
    + destruct (analyze_resume_replied w _ _ _ _ _ log Hp Hreply Hparse)
        as (rk & jk & score & _ & _ & ->).
      eexists. split; [done|]. split; [done|]. split; [done|].
      intros [[msg ?]|(c & msg & [= <-] & ?)]; congruence.
    + destruct (analyze_resume_replied w _ _ _ _ _ log Hp Hreply Hparse)
        as (rk & jk & score & _ & _ & ->).
      eexists. split; [done|]. split; [done|]. split; [done|].
      intros [[msg ?]|(c & msg & [= <-] & ?)]; congruence.
    + rewrite (analyze_resume_parse_raised w _ _ _ _ _ log Hp Hreply Hparse).
      eexists. split; [done|]. split; [done|]. split; [|done].
      intros _. right. by eauto.
  - rewrite (analyze_resume_raised w _ _ _ _ log Hp Hreply).
    eexists. split; [done|]. split; [done|]. split; [by eauto|done].
Qed.

(** X8: when the model replied, [json.loads] raised nothing but possibly
    [JSONDecodeError], and the embedding model could not be loaded or raises
    on the two texts, the analysis still succeeds and reports the semantic
    similarity 0.0. *)
Theorem analysis_without_embedding_model
    (resume_text job_description prompt content : string) (log : list string) :
  match_prompt resume_text job_description = Return prompt →
  llm_invoke w prompt = Return content →
  (∀ msg, json_loads w content ≠ OtherException msg) →
  sentence_model w = None
    ∨ (∃ model msg, sentence_model w = Some model
                   ∧ model resume_text job_description = Raise msg) →
  ∃ res,
    analyze_resume w resume_text job_description log =
      (Return res, (log ++ [prompt])%list) ∧
    dict_has "error" res = false ∧
    dict_get "semantic_similarity" res = Some (JFloat 0).
Proof.
  intros Hp Hreply Hloads Hmodel.
  destruct (parse_ai_analysis_returns content Hloads) as [ai Hparse].
  destruct (analyze_resume_report _ _ _ _ _ log Hp Hreply Hparse)
    as (rk & jk & x & _ & _ & Hx & ->).
  assert (x = f0) as ->.
  { unfold calculate_semantic_similarity in Hx.
    destruct Hmodel as [Hm|(model & msg & Hm & Hraise)]; rewrite Hm in Hx.
    - by injection Hx.
    - rewrite Hraise in Hx. by injection Hx. }
  eexists. split; [done|]. split; [done|]. reflexivity.
Qed.

(** X9: both prompts hold the texts as they are, in a fixed frame: the
    literal pieces of the template, then the resume, the job description
    and (for the suggestions) the serialised analysis in between. *)
Theorem prompts_embed_texts_verbatim :
  ∃ a b c a' b' c' d',
    template match_analysis_prompt =
      [Lit a; Var "resume_text"; Lit b; Var "job_description"; Lit c] ∧
    template improvement_prompt =
      [Lit a'; Var "resume_text"; Lit b'; Var "job_description"; Lit c';
       Var "analysis"; Lit d'] ∧
    (∀ resume_text job_description,
       match_prompt resume_text job_description =
         Return (a ++ resume_text ++ b ++ job_description ++ c)) ∧
    (∀ w resume_text job_description analysis,
       suggestions_prompt w resume_text job_description analysis =
         (ai_analysis ← py_get "ai_analysis" (JObj []) analysis;
          dumped ← json_dumps w ai_analysis;
          Return (a' ++ resume_text ++ b' ++ job_description ++ c'
                     ++ dumped ++ d'))).
Proof.
  do 7 eexists. split; [reflexivity|]. split; [reflexivity|]. split.
  - intros r j. unfold match_prompt, format.
    change (template match_analysis_prompt) with
      [Lit (match template match_analysis_prompt with
            | [Lit a; _; _; _; _] => a | _ => EmptyString end);
       Var "resume_text";
       Lit (match template match_analysis_prompt with
            | [_; _; Lit b; _; _] => b | _ => EmptyString end);
       Var "job_description";
       Lit (match template match_analysis_prompt with
            | [_; _; _; _; Lit c] => c | _ => EmptyString end)].
    by rewrite format_pieces_2.
  - intros w' r j analysis. unfold suggestions_prompt, format.
    destruct (py_get "ai_analysis" (JObj []) analysis) as [ai|]; [|done].
    cbn [mbind pyresult_bind].
    destruct (json_dumps w' ai) as [dumped|]; [|done].
    cbn [mbind pyresult_bind].
    change (template improvement_prompt) with
      [Lit (match template improvement_prompt with
            | [Lit a; _; _; _; _; _; _] => a | _ => EmptyString end);
       Var "resume_text";
       Lit (match template improvement_prompt with
            | [_; _; Lit b; _; _; _; _] => b | _ => EmptyString end);
       Var "job_description";
       Lit (match template improvement_prompt with
            | [_; _; _; _; Lit c; _; _] => c | _ => EmptyString end);
       Var "analysis";
       Lit (match template improvement_prompt with
            | [_; _; _; _; _; _; Lit d] => d | _ => EmptyString end)].
    by rewrite format_pieces_3.
Qed.

(** X10: a reply that is valid JSON but no object (a list, a string, a
    number) is accepted by [analyze_resume], whose record has no ["error"];
    reading the score of that record for the gauge then raises. *)
Theorem non_object_reply_breaks_gauge
    (resume_text job_description prompt content : string) (value : json)
    (log : list string) :
  match_prompt resume_text job_description = Return prompt →
  llm_invoke w prompt = Return content →
  json_loads w content = Loaded value →
  Display.is_dict value = false →
  ∃ res msg,
    analyze_resume w resume_text job_description log =
      (Return res, (log ++ [prompt])%list) ∧
    dict_has "error" res = false ∧
    UI.overall_score_gauge w res = Raise msg.
Proof.
  intros Hp Hreply Hloads Hdict.
  assert (parse_ai_analysis w content = Return value) as Hparse
    by (unfold parse_ai_analysis; by rewrite Hloads).
  destruct (analyze_resume_replied w _ _ _ _ _ log Hp Hreply Hparse)
    as (rk & jk & score & _ & _ & ->).
  do 2 eexists. split; [done|]. split; [done|].
  unfold UI.overall_score_gauge. simpl.
  destruct value; try done.
Qed.

End Facts.
End OrchestratorFacts.

(** ** More on PDF text extraction *)

Module PagesFacts.
Import PDFParser Pages PDFParserFacts.

Lemma append_assoc (a b c : string) : (a ++ b) ++ c = a ++ b ++ c.
Proof.
  induction a as [|x a IH]; [done|].
  change (String x ((a ++ b) ++ c) = String x (a ++ b ++ c)). by f_equal.
Qed.

Section Facts.
Context (w : World).

(** When every page can be read, the loop gives the pages that are not
    blank, in order, each followed by two newlines. *)
Lemma read_pages_readable (pages : list (pyresult string)) (text : string) :
  existsb raises pages = false →
  read_pages w pages text = Return (text ++ joined w (readable pages)).
Proof.
  revert text. induction pages as [|[page_text|msg] pages IH]; intros text Hok.
  - simpl. by rewrite OrchestratorFacts.append_empty.
  - simpl in *. cbn [mbind pyresult_bind].
    destruct (str_nonempty (strip (isspace w) page_text)); rewrite IH by done;
      [|done].
    by rewrite !append_assoc.
  - done.
Qed.

(** A page that cannot be read stops the loop with its exception. *)
Lemma read_pages_raises (pages : list (pyresult string)) (text : string) :
  existsb raises pages = true → ∃ msg, read_pages w pages text = Raise msg.
Proof.
  revert text. induction pages as [|[page_text|msg] pages IH]; intros text Hbad.
  - done.
  - simpl in *. cbn [mbind pyresult_bind].
    destruct (str_nonempty (strip (isspace w) page_text)); by apply IH.
  - simpl. by eauto.
Qed.

Lemma joined_skips_blank (pages : list (pyresult string)) :
  joined w (readable (filter (λ page, blank w page = false) pages)) =
    joined w (readable pages).
Proof.
  induction pages as [|[page_text|msg] pages IH]; [done| |].
  - rewrite filter_cons. simpl.
    destruct (str_nonempty (strip (isspace w) page_text)) eqn:Hne; simpl;
      [by rewrite Hne, IH|done].
  - by rewrite filter_cons.
Qed.

Lemma raises_skips_blank (pages : list (pyresult string)) :
  existsb raises (filter (λ page, blank w page = false) pages) =
    existsb raises pages.
Proof.
  induction pages as [|[page_text|msg] pages IH]; [done| |].
  - rewrite filter_cons. case_decide; cbn [existsb raises orb]; exact IH.
  - rewrite filter_cons. rewrite decide_True by done.
    cbn [existsb raises orb]. done.
Qed.

(** What [extract_text_pymupdf] returns for an opened document. *)
Lemma extract_text_pymupdf_opened (f : pdf_file) (doc : list (pyresult string)) :
  fitz_open w (pdf_bytes f) = Return doc →
  extract_text_pymupdf w f =
    Return (if existsb raises doc then EmptyString
            else strip (isspace w) (joined w (readable doc))).
Proof.
  intros Hopen. unfold extract_text_pymupdf. rewrite Hopen.
  cbn [mbind pyresult_bind].
  destruct (existsb raises doc) eqn:Hbad.
  - by destruct (read_pages_raises doc EmptyString Hbad) as [msg ->].
  - by rewrite (read_pages_readable doc EmptyString Hbad).
Qed.

(** X11: [validate_pdf] and [extract_text] agree on a file.  Both always
    return.  When the file cannot be opened, the validation is invalid with
    the message ["Invalid PDF file: ..."] and the extraction fails with the
    message of the reader, no text and no pages; when it can be opened, the
    validation is valid and both report the same number of pages.  The file
    size is the number of bytes in both cases. *)
Theorem validate_pdf_agrees_with_extract_text (f : pdf_file) :
  ∃ v r,
    validate_pdf w f = Return v ∧ extract_text w f = Return r ∧
    file_size v = Z.of_nat (length (pdf_bytes f)) ∧
    page_count r = validation_page_count v ∧
    match fitz_open w (pdf_bytes f) with
    | Return doc =>
        is_valid v = true ∧ validation_error v = None ∧
        page_count r = Z.of_nat (length doc)
    | Raise msg =>
        is_valid v = false ∧
        validation_error v = Some ("Invalid PDF file: " ++ msg) ∧
        success r = false ∧ error r = Some msg ∧
        text r = EmptyString ∧ page_count r = 0
    end.
Proof.
  unfold validate_pdf, extract_text, extract_text_try.
  destruct (fitz_open w (pdf_bytes f)) as [doc|msg] eqn:Hopen.
  - rewrite (extract_text_pymupdf_opened f doc Hopen).
    destruct (str_nonempty _ && _); do 2 eexists; by repeat split.
  - do 2 eexists. by repeat split.
Qed.

(** X12: blank pages do not change the extracted text: two files whose
    documents have the same pages once the blank ones are removed give the
    same text. *)
Theorem blank_pages_do_not_matter (f1 f2 : pdf_file) (doc1 doc2 : list (pyresult string)) :
  fitz_open w (pdf_bytes f1) = Return doc1 →
  fitz_open w (pdf_bytes f2) = Return doc2 →
  filter (λ page, blank w page = false) doc1 =
    filter (λ page, blank w page = false) doc2 →
  extract_text_pymupdf w f1 = extract_text_pymupdf w f2.
Proof.
  intros H1 H2 Hsame.
  rewrite (extract_text_pymupdf_opened f1 doc1 H1).
  rewrite (extract_text_pymupdf_opened f2 doc2 H2).
  rewrite <- (raises_skips_blank doc1), <- (raises_skips_blank doc2).
  rewrite <- (joined_skips_blank doc1), <- (joined_skips_blank doc2).
  by rewrite Hsame.
Qed.

(** X13: one page that cannot be read makes the whole extraction fail,
    whatever the other pages hold: the text is empty and the error is
    ["No text extracted or text too short"], while the page count is still
    reported and [validate_pdf] accepts the file. *)
Theorem unreadable_page_fails_extraction (f : pdf_file) (doc : list (pyresult string)) :
  fitz_open w (pdf_bytes f) = Return doc →
  existsb raises doc = true →
  ∃ v r,
    validate_pdf w f = Return v ∧ is_valid v = true ∧
    extract_text_pymupdf w f = Return EmptyString ∧
    extract_text w f = Return r ∧
    success r = false ∧ text r = EmptyString ∧
    error r = Some "No text extracted or text too short" ∧
    page_count r = Z.of_nat (length doc).
Proof.
  intros Hopen Hbad.
  pose proof (extract_text_pymupdf_opened f doc Hopen) as Htext.
  rewrite Hbad in Htext.
  unfold validate_pdf, extract_text, extract_text_try. rewrite Hopen, Htext.
  do 2 eexists. by repeat split.
Qed.

(** X14: a successful extraction comes from a document that was opened, has
    at least one page and no page that cannot be read; its text is stripped
    (stripping it again changes nothing) and its page count is the number of
    pages. *)
Theorem extract_text_success_invariants (f : pdf_file) (r : ExtractResult) :
  extract_text w f = Return r →
  success r = true →
  ∃ doc,
    fitz_open w (pdf_bytes f) = Return doc ∧
    existsb raises doc = false ∧
    page_count r = Z.of_nat (length doc) ∧ 1 ≤ page_count r ∧
    text r = strip (isspace w) (joined w (readable doc)) ∧
    strip (isspace w) (text r) = text r ∧
    method_used r = "pymupdf".
Proof.
  unfold extract_text, extract_text_try.
  destruct (fitz_open w (pdf_bytes f)) as [doc|msg] eqn:Hopen;
    [|by intros [= <-]].
  rewrite (extract_text_pymupdf_opened f doc Hopen).
  destruct (existsb raises doc) eqn:Hbad; [by intros [= <-]|].
  destruct (str_nonempty _ && _) eqn:Hc; [|by intros [= <-]].
  intros [= <-] _. exists doc. simpl.
  split; [done|]. split; [done|]. split; [done|]. split.
  - destruct doc; [done|]. rewrite length_cons. lia.
  - split; [done|]. split; [apply strip_idem|done].
Qed.

End Facts.
End PagesFacts.

(** ** More on the application *)

Module ProcessFacts.
Import ResumeAnalyzer AnalyzerFacts PDFParser PagesFacts.

Section Facts.
Context (w : World).

(** X15: [validate_inputs] accepts exactly when it lists no error, which is
    exactly when a file is uploaded whose lower-cased name ends with [.pdf]
    and whose size in MB is not above 10, and the job description is not
    empty and has at least 50 characters once stripped.  It lists at most
    three errors. *)
Theorem validate_inputs_valid_iff (uploaded_file : option App.UploadedFile)
    (job_description : string) :
  ∃ is_valid errors,
    App.validate_inputs w uploaded_file job_description = (is_valid, errors) ∧
    (is_valid = true ↔ errors = []) ∧
    (length errors ≤ 3)%nat ∧
    (is_valid = true ↔
       (∃ f, uploaded_file = Some f ∧
             App.endswith (lower w (App.name f)) ".pdf" = true ∧
             py_lt (PyInt App.MAX_FILE_SIZE_MB)
                   (PyFloat (py_true_div (App.size f) (1024 * 1024))) = false) ∧
       str_nonempty job_description = true ∧
       50 ≤ len (strip (isspace w) job_description)).
Proof.
  unfold App.validate_inputs. cbv zeta.
  destruct (str_nonempty job_description) eqn:Hjd;
  destruct (len (strip (isspace w) job_description) <? 50) eqn:Hlen;
  [apply Z.ltb_lt in Hlen|apply Z.ltb_ge in Hlen
  |apply Z.ltb_lt in Hlen|apply Z.ltb_ge in Hlen];
  (destruct uploaded_file as [f|];
   [destruct (App.endswith (lower w (App.name f)) ".pdf") eqn:Hpdf;
    destruct (py_lt (PyInt App.MAX_FILE_SIZE_MB)
                (PyFloat (py_true_div (App.size f) (1024 * 1024)))) eqn:Hsize|]);
  simpl in *; do 2 eexists; (split; [reflexivity|]);
  (split; [done|]); (split; [simpl; lia|]);
  (split; [try done|]);
  try (intros ([f' (? & ? & ?)] & ? & ?); simplify_eq; (congruence || lia)).
  intros _. split; [|done]. by exists f.
Qed.

(** The suggestions step never raises and sends at most one prompt. *)
Lemma get_improvement_suggestions_returns
    (resume_text job_description : string) (analysis : json) (log : list string) :
  ∃ res sent,
    get_improvement_suggestions w resume_text job_description analysis log =
      (Return res, (log ++ sent)%list) ∧ (length sent ≤ 1)%nat.
Proof.
  unfold get_improvement_suggestions, eff_try, mbind, Eff_bind, lift, invoke.
  destruct (suggestions_prompt w resume_text job_description analysis)
    as [prompt|msg].
  - destruct (llm_invoke w prompt) as [content|msg];
      [destruct (parse_suggestions w content)|]; eexists _, [prompt];
      (split; [reflexivity|simpl; lia]).
  - eexists _, []. rewrite app_nil_r. split; [reflexivity|simpl; lia].
Qed.

(** What [extract_text] returns for an opened document. *)
Lemma extract_text_opened (f : pdf_file) (doc : list (pyresult string)) :
  fitz_open w (pdf_bytes f) = Return doc →
  ∃ r, extract_text w f = Return r ∧
    page_count r = Z.of_nat (length doc) ∧ method_used r = "pymupdf" ∧
    ((success r = true ∧ 10 < len (text r) ∧ doc ≠ [])
     ∨ (success r = false ∧
        error r = Some "No text extracted or text too short")).
Proof.
  intros Hopen. unfold extract_text, extract_text_try. rewrite Hopen.
  rewrite (extract_text_pymupdf_opened w f doc Hopen).
  destruct (str_nonempty _ && _) eqn:Hc; eexists; (split; [done|]);
    (split; [done|]); (split; [done|]); [left|by right].
  split; [done|]. simpl. apply andb_prop in Hc as [Hne Hlen].
  destruct doc; [done|]. split; [|done].
  destruct (existsb Pages.raises (p :: doc)); [done|].
  rewrite strip_idem in Hlen. by apply Z.ltb_lt.
Qed.

(** The seven ways in which [process_resume_analysis] ends. *)
Lemma process_cases (file : App.UploadedFile) (job_description : string)
    (log : list string) :
  ∃ res sent,
    App.process_resume_analysis w file job_description log =
      (Return res, (log ++ sent)%list) ∧
    ((∃ msg, App.get_openrouter_api_key w = Raise msg ∧ sent = [] ∧
             res = App.Failure ("Configuration error: " ++ msg))
     ∨ ∃ key, App.get_openrouter_api_key w = Return key ∧
       ((∃ msg, fitz_open w (App.content file) = Raise msg ∧ sent = [] ∧
                res = App.Failure
                        ("PDF validation failed: Invalid PDF file: " ++ msg))
        ∨ ∃ doc r, fitz_open w (App.content file) = Return doc ∧
            extract_text w (FileObject (App.content file)) = Return r ∧
            ((success r = false ∧ sent = [] ∧
              res = App.Failure
                      "Text extraction failed: No text extracted or text too short")
             ∨ success r = true ∧ 10 < len (text r) ∧ doc ≠ [] ∧
               ((∃ msg, analyzer_init w key = Raise msg ∧ sent = [] ∧
                        res = App.Failure ("AI analysis error: " ++ msg))
                ∨ analyzer_init w key = Return () ∧
                  ∃ prompt, match_prompt (text r) job_description = Return prompt ∧
                    ((∃ msg, llm_invoke w prompt = Raise msg ∧ sent = [prompt] ∧
                             res = App.Failure ("Analysis failed: " ++ msg))
                     ∨ (∃ content msg, llm_invoke w prompt = Return content ∧
                          json_loads w content = OtherException msg ∧
                          sent = [prompt] ∧
                          res = App.Failure ("Analysis failed: " ++ msg))
                     ∨ ∃ content analysis suggestions more,
                         llm_invoke w prompt = Return content ∧
                         (∀ msg, json_loads w content ≠ OtherException msg) ∧
                         analyze_resume w (text r) job_description log =
                           (Return analysis, (log ++ [prompt])%list) ∧
                         dict_has "error" analysis = false ∧
                         sent = prompt :: more ∧ (length more ≤ 1)%nat ∧
                         res = App.Success (text r) analysis suggestions
                                 {| App.info_page_count := Z.of_nat (length doc);
                                    App.info_file_size :=
                                      Z.of_nat (length (App.content file));
                                    App.info_method_used := "pymupdf" |}))))).
Proof.
  unfold App.process_resume_analysis, App.validate_config.
  destruct (App.get_openrouter_api_key w) as [key|msg] eqn:Hkey.
  2:{ eexists _, []. rewrite (app_nil_r log). split; [reflexivity|].
      left. exists msg. by repeat split. }
  unfold eff_try at 1. unfold mbind at 1, Eff_bind at 1, lift at 1.
  cbn [negb fst snd].
  unfold validate_pdf. cbn [pdf_bytes].
  destruct (fitz_open w (App.content file)) as [doc|msg] eqn:Hopen.
  2:{ eexists _, []. rewrite (app_nil_r log). split; [reflexivity|].
      right. exists key. split; [done|]. left. by exists msg. }
  cbn [is_valid negb].
  destruct (extract_text_opened (FileObject (App.content file)) doc Hopen)
    as (r & Hr & Hpages & Hmethod & Hcases).
  unfold mbind at 1, Eff_bind at 1, lift at 1. rewrite Hr.
  destruct Hcases as [(Hs & Hlen & Hdoc)|(Hs & Herr)]; rewrite Hs; cbn [negb].
  2:{ eexists _, []. rewrite (app_nil_r log). split; [reflexivity|].
      right. exists key. split; [done|]. right. exists doc, r.
      do 2 (split; [done|]). left. rewrite Herr. by repeat split. }
  unfold mbind at 1, Eff_bind at 1. unfold eff_try at 1.
  unfold mbind at 1, Eff_bind at 1, lift at 1.
  unfold mbind at 1, Eff_bind at 1, lift at 1.
  destruct (analyzer_init w key) as [[]|msg] eqn:Hinit.
  2:{ eexists _, []. rewrite (app_nil_r log). split; [reflexivity|].
      right. exists key. split; [done|]. right. exists doc, r.
      do 2 (split; [done|]). right. do 3 (split; [done|]).
      left. by exists msg. }
  destruct (match_prompt_returns (text r) job_description) as [prompt Hp].
  unfold mbind at 1, Eff_bind at 1.
  destruct (llm_invoke w prompt) as [content|msg] eqn:Hreply.
  - destruct (parse_ai_analysis w content) as [ai|msg] eqn:Hparse.
    + destruct (analyze_resume_replied w _ _ _ _ _ log Hp Hreply Hparse)
        as (rk & jk & score & _ & _ & Han).
      rewrite Han. cbn [dict_has dict_get assoc_get].
      destruct (get_improvement_suggestions_returns (text r) job_description
                  (JObj [("ai_analysis", ai);
                         ("keyword_analysis", keyword_analysis w rk jk);
                         ("semantic_similarity", JNum score);
                         ("analysis_timestamp", JStr (now w))])
                  (log ++ [prompt])%list) as (sug & more & Hsug & Hmore).
      simpl. unfold eff_try, mbind, Eff_bind. rewrite Hsug.
      eexists _, (prompt :: more). split.
      { rewrite <- app_assoc. simpl. rewrite Hmethod. reflexivity. }
      right. exists key. split; [done|]. right. exists doc, r.
      do 2 (split; [done|]). right. do 3 (split; [done|]).
      right. split; [done|]. exists prompt. split; [done|]. right. right.
      exists content. do 3 eexists. split; [done|]. split; [|by repeat split].
      intros msg Hloads. pose proof (parse_ai_analysis_cases w content) as Hc.
      rewrite Hloads in Hc. congruence.
    + rewrite (analyze_resume_parse_raised w _ _ _ _ _ log Hp Hreply Hparse).
      simpl. eexists _, [prompt]. split; [reflexivity|].
      right. exists key. split; [done|]. right. exists doc, r.
      do 2 (split; [done|]). right. do 3 (split; [done|]).
      right. split; [done|]. exists prompt. split; [done|]. right. left.
      exists content, msg. split; [done|]. split; [|done].
      pose proof (parse_ai_analysis_cases w content) as Hc.
      destruct (json_loads w content); congruence.
  - rewrite (analyze_resume_raised w _ _ _ _ log Hp Hreply).
    simpl. eexists _, [prompt]. split; [reflexivity|].
    right. exists key. split; [done|]. right. exists doc, r.
    do 2 (split; [done|]). right. do 3 (split; [done|]).
    right. split; [done|]. exists prompt. split; [done|]. left. by exists msg.
Qed.

(** X16: [process_resume_analysis] never raises.  It sends at most two
    prompts to the model: none or one when it fails, one or two when it
    succeeds. *)
Theorem process_never_raises (file : App.UploadedFile) (job_description : string)
    (log : list string) :
  ∃ res sent,
    App.process_resume_analysis w file job_description log =
      (Return res, (log ++ sent)%list) ∧
    (length sent ≤ 2)%nat ∧
    match res with
    | App.Failure _ => (length sent ≤ 1)%nat
    | App.Success _ _ _ _ => (1 ≤ length sent)%nat
    end.
Proof.
  destruct (process_cases file job_description log) as (res & sent & Hrun & H).
  exists res, sent. split; [done|].
  destruct H as [(? & _ & -> & ->)|(key & _ & H)]; [simpl; lia|].
  destruct H as [(? & _ & -> & ->)|(doc & r & _ & _ & H)]; [simpl; lia|].
  destruct H as [(_ & -> & ->)|(_ & _ & _ & H)]; [simpl; lia|].
  destruct H as [(? & _ & -> & ->)|(_ & prompt & _ & H)]; [simpl; lia|].
  destruct H as [(? & _ & -> & ->)|[(? & ? & _ & _ & -> & ->)|H]];
    [simpl; lia..|].
  destruct H as (? & ? & ? & more & _ & _ & _ & _ & -> & ? & ->). simpl. lia.
Qed.

(** X17: nothing is sent to the model when the API key is missing, when the
    PDF cannot be opened or when the text extraction does not succeed: the
    request fails before the analyzer is built. *)
Theorem no_model_call_before_checks (file : App.UploadedFile)
    (job_description : string) (log : list string) :
  (∃ msg, App.get_openrouter_api_key w = Raise msg)
    ∨ (∃ msg, fitz_open w (App.content file) = Raise msg)
    ∨ (∃ r, extract_text w (FileObject (App.content file)) = Return r
            ∧ success r = false) →
  ∃ error,
    App.process_resume_analysis w file job_description log =
      (Return (App.Failure error), log).
Proof.
  intros Hpre.
  destruct (process_cases file job_description log) as (res & sent & Hrun & H).
  assert (sent = [] ∧ ∃ error, res = App.Failure error) as [-> [error ->]].
  { destruct H as [(? & _ & -> & ->)|(key & Hkey & H)]; [by eauto|].
    destruct H as [(? & _ & -> & ->)|(doc & r & Hopen & Hr & H)]; [by eauto|].
    destruct H as [(_ & -> & ->)|(Hs & _ & _ & _)]; [by eauto|].
    destruct Hpre as [[? ?]|[[? ?]|(r' & Hr' & Hs')]]; congruence. }
  exists error. by rewrite (app_nil_r log) in Hrun.
Qed.

(** X18: a successful request carries a resume text of more than 10
    characters, an analysis without the key ["error"] that [analyze_resume]
    returned for that text, and the file information of the validation (the
    number of bytes, at least one page, the method [pymupdf]); one or two
    prompts were sent, the first being the analysis prompt. *)
Theorem process_success_facts (file : App.UploadedFile) (job_description : string)
    (log log' : list string) (resume_text : string) (analysis suggestions : json)
    (file_info : App.FileInfo) :
  App.process_resume_analysis w file job_description log =
    (Return (App.Success resume_text analysis suggestions file_info), log') →
  10 < len resume_text ∧
  dict_has "error" analysis = false ∧
  App.info_file_size file_info = Z.of_nat (length (App.content file)) ∧
  1 ≤ App.info_page_count file_info ∧
  App.info_method_used file_info = "pymupdf" ∧
  ∃ prompt more,
    match_prompt resume_text job_description = Return prompt ∧
    analyze_resume w resume_text job_description log =
      (Return analysis, (log ++ [prompt])%list) ∧
    log' = (log ++ prompt :: more)%list ∧ (length more ≤ 1)%nat.
Proof.
  intros Hrun.
  destruct (process_cases file job_description log) as (res & sent & Hrun' & H).
  rewrite Hrun in Hrun'. injection Hrun' as <- ->.
  destruct H as [(? & _ & _ & [=])|(key & _ & H)].
  destruct H as [(? & _ & _ & [=])|(doc & r & _ & _ & H)].
  destruct H as [(_ & _ & [=])|(_ & Hlen & Hdoc & H)].
  destruct H as [(? & _ & _ & [=])|(_ & prompt & Hp & H)].
  destruct H as [(? & _ & _ & [=])|[(? & ? & _ & _ & _ & [=])|H]].
  destruct H as (content & a & s & more & _ & _ & Han & Herr & -> & Hmore
                 & [= -> -> -> ->]).
  simpl. do 3 (split; [done|]). split.
  - destruct doc; [done|]. rewrite length_cons. lia.
  - split; [done|]. by exists prompt, more.
Qed.

(** X19: once a prompt has been sent, the request fails exactly when the
    analysis ended in its handler: the first call to the model raised, or
    [json.loads] raised another exception than [JSONDecodeError] on its
    reply.  It then fails with ["Analysis failed: "] and the message of the
    exception, and without a second call.  Whatever the second call does,
    the request succeeds. *)
Theorem request_fails_iff_analysis_raised (file : App.UploadedFile)
    (job_description : string) (log more : list string) (prompt : string)
    (res : App.ProcessResult) :
  App.process_resume_analysis w file job_description log =
    (Return res, (log ++ prompt :: more)%list) →
  ((∃ error, res = App.Failure error) ↔
     (∃ msg, llm_invoke w prompt = Raise msg)
     ∨ (∃ content msg, llm_invoke w prompt = Return content
                       ∧ json_loads w content = OtherException msg)) ∧
  (∀ msg,
     llm_invoke w prompt = Raise msg
     ∨ (∃ content, llm_invoke w prompt = Return content
                   ∧ json_loads w content = OtherException msg) →
     res = App.Failure ("Analysis failed: " ++ msg) ∧ more = []).
Proof.
  intros Hrun.
  destruct (process_cases file job_description log) as (res' & sent & Hrun' & H).
  rewrite Hrun in Hrun'. injection Hrun' as <- Hsent.
  apply app_inv_head in Hsent. subst sent.
  destruct H as [(? & _ & [=] & _)|(key & _ & H)].
  destruct H as [(? & _ & [=] & _)|(doc & r & _ & _ & H)].
  destruct H as [(_ & [=] & _)|(_ & _ & _ & H)].
  destruct H as [(? & _ & [=] & _)|(_ & p & _ & H)].
  destruct H as [(msg & Hraise & [= -> ->] & ->)
                |[(content & msg & Hreply & Hloads & [= -> ->] & ->)|H]].
  - split; [split; by eauto|].
    intros msg' [Hmsg'|(c & Hc & _)]; [|congruence].
    split; [congruence|done].
  - split; [split; by eauto 6|].
    intros msg' [Hmsg'|(c & Hc & Hl)]; [congruence|].
    split; [congruence|done].
  - destruct H as (content & a & s & more' & Hreply & Hno & _ & _ & [= -> ->] & _ & ->).
    split; [split|].
    + intros [? [=]].
    + intros [[? ?]|(c & msg & Hc & Hl)]; [congruence|].
      assert (c = content) as -> by congruence. by destruct (Hno msg).
    + intros msg [?|(c & Hc & Hl)]; [congruence|].
      assert (c = content) as -> by congruence. by destruct (Hno msg).
Qed.

Lemma validate_inputs_flag (uploaded_file : option App.UploadedFile)
    (job_description : string) :
  (App.validate_inputs w uploaded_file job_description).1 =
    bool_decide (length (App.validate_inputs w uploaded_file job_description).2
                 = 0%nat).
Proof. reflexivity. Qed.

Lemma validate_inputs_no_file (job_description : string) :
  (App.validate_inputs w None job_description).1 = false.
Proof.
  unfold App.validate_inputs. cbv zeta.
  destruct (negb _ || _); reflexivity.
Qed.

(** X20: [main] shows the welcome screen, and sends nothing, as long as the
    button was not pressed; it shows the input errors, and sends nothing, when
    [validate_inputs] rejects the inputs; it reaches the analysis only for
    inputs that [validate_inputs] accepts, with at most two prompts sent.
    It raises only out of [display_results], that is after a successful
    request, and with the exception of [display_results]; the results count
    as shown when [display_results] returned. *)
Theorem main_screens (process_button : bool)
    (uploaded_file : option App.UploadedFile) (job_description : string)
    (log : list string) :
  ∃ outcome sent,
    App.main w process_button uploaded_file job_description log =
      (outcome, (log ++ sent)%list) ∧
    (length sent ≤ 2)%nat ∧
    match outcome with
    | Return App.Welcome => process_button = false ∧ sent = []
    | Return (App.InputErrors errors) =>
        process_button = true ∧ sent = [] ∧ errors ≠ [] ∧
        App.validate_inputs w uploaded_file job_description = (false, errors)
    | Return (App.AnalysisFailed _) =>
        process_button = true ∧ (length sent ≤ 1)%nat ∧
        (App.validate_inputs w uploaded_file job_description).1 = true
    | Return (App.Results results) =>
        process_button = true ∧ (1 ≤ length sent)%nat ∧
        (App.validate_inputs w uploaded_file job_description).1 = true ∧
        ∃ resume_text analysis suggestions file_info,
          results = App.Success resume_text analysis suggestions file_info ∧
          display_results w
            (App.results_dict resume_text analysis suggestions file_info) =
            Return ()
    | Raise msg =>
        process_button = true ∧ (1 ≤ length sent)%nat ∧
        (App.validate_inputs w uploaded_file job_description).1 = true ∧
        ∃ file resume_text analysis suggestions file_info,
          uploaded_file = Some file ∧
          App.process_resume_analysis w file job_description log =
            (Return (App.Success resume_text analysis suggestions file_info),
             (log ++ sent)%list) ∧
          display_results w
            (App.results_dict resume_text analysis suggestions file_info) =
            Raise msg
    end.
Proof.
  unfold App.main. destruct process_button; cbn [negb].
  2:{ exists (Return App.Welcome), []. rewrite (app_nil_r log).
      split; [reflexivity|]. split; [simpl; lia|done]. }
  pose proof (validate_inputs_flag uploaded_file job_description) as Hflag.
  destruct (App.validate_inputs w uploaded_file job_description)
    as [is_valid errors] eqn:Hv. simpl in Hflag.
  destruct is_valid; cbn [negb].
  2:{ exists (Return (App.InputErrors errors)), []. rewrite (app_nil_r log).
      split; [reflexivity|]. split; [simpl; lia|]. do 2 (split; [done|]).
      split; [|done]. intros ->. done. }
  destruct uploaded_file as [f|].
  2:{ pose proof (validate_inputs_no_file job_description) as Hno.
      rewrite Hv in Hno. done. }
  destruct (process_cases f job_description log) as (res & sent & Hrun & H).
  unfold mbind at 1, Eff_bind at 1. rewrite Hrun.
  assert ((length sent ≤ 2)%nat ∧
          match res with
          | App.Failure _ => (length sent ≤ 1)%nat
          | App.Success _ _ _ _ => (1 ≤ length sent)%nat
          end) as [Hsent Hres].
  { destruct H as [(? & _ & -> & ->)|(key & _ & H)]; [simpl; lia|].
    destruct H as [(? & _ & -> & ->)|(doc & r & _ & _ & H)]; [simpl; lia|].
    destruct H as [(_ & -> & ->)|(_ & _ & _ & H)]; [simpl; lia|].
    destruct H as [(? & _ & -> & ->)|(_ & prompt & _ & H)]; [simpl; lia|].
    destruct H as [(? & _ & -> & ->)|[(? & ? & _ & _ & -> & ->)|H]];
      [simpl; lia..|].
    destruct H as (? & ? & ? & more & _ & _ & _ & _ & -> & ? & ->). simpl. lia. }
  destruct res as [error|t a s i].
  - eexists _, sent. split; [reflexivity|]. split; [done|]. by repeat split.
  - unfold mbind, Eff_bind, lift.
    destruct (display_results w (App.results_dict t a s i)) as [[]|msg] eqn:Hshow;
      eexists _, sent; (split; [reflexivity|]); (split; [done|]);
      do 3 (split; [done|]).
    + by exists t, a, s, i.
    + by exists f, t, a, s, i.
Qed.

End Facts.
End ProcessFacts.

(** ** The display of the lists *)

Module DisplayFacts.
Import ResumeAnalyzer AnalyzerFacts Display.

(** A loop that puts out one item per element puts out the mapped list. *)
Lemma for_each_emit {E A : Type} (f : A → E) (items : list A) (log : list E) :
  for_each items (λ x, emit (f x)) log = (Return (), (log ++ (f <$> items))%list).
Proof.
  revert log. induction items as [|x items IH]; intros log; simpl.
  - by rewrite (app_nil_r log).
  - unfold mbind, Logged_bind, emit. rewrite IH. by rewrite <- app_assoc.
Qed.

Lemma take_fmap_JStr (n : nat) (l : list string) :
  take n (JStr <$> l) = JStr <$> take n l.
Proof. by rewrite fmap_take. Qed.

Lemma report_keyword_analysis (a k s t : json) :
  py_get "keyword_analysis" (JObj [])
    (JObj [("ai_analysis", a); ("keyword_analysis", k);
           ("semantic_similarity", s); ("analysis_timestamp", t)]) = Return k.
Proof. reflexivity. Qed.

Lemma keyword_analysis_truthy (w : World) (rk jk : list string) :
  py_truthy (keyword_analysis w rk jk) = true.
Proof. reflexivity. Qed.

(** The report has no ["found_keywords"]. *)
Lemma keyword_analysis_found (w : World) (rk jk : list string) :
  py_get "found_keywords" (JArr []) (keyword_analysis w rk jk) = Return (JArr []).
Proof. reflexivity. Qed.

Lemma keyword_analysis_missing (w : World) (rk jk : list string) :
  py_get "missing_keywords" (JArr []) (keyword_analysis w rk jk) =
    Return (JStrs (list_of_sub w jk rk)).
Proof. reflexivity. Qed.

Section Facts.
Context (w : World) (bar_chart : list (string * json) → pyresult ()).

(** X21: for the record that [analyze_resume] returns after a reply of the
    model, [display_keyword_analysis] never shows a found keyword nor the
    frequency chart, however many keywords the resume and the job description
    share.  For a report it reads ["found_keywords"], which the report does
    not have, and shows the first 10 of the missing keywords as the report
    lists them (the job keywords that are no resume keywords, in the order of
    the run), or that all keywords were found.  For the error record, which
    is returned when [json.loads] raised another exception than
    [JSONDecodeError], it shows that there is no keyword data. *)
Theorem keyword_display_shows_no_found_keyword
    (resume_text job_description prompt content : string) (log : list string)
    (shown : list widget) :
  match_prompt resume_text job_description = Return prompt →
  llm_invoke w prompt = Return content →
  ∃ res,
    analyze_resume w resume_text job_description log =
      (Return res, (log ++ [prompt])%list) ∧
    match json_loads w content with
    | OtherException _ =>
        display_keyword_analysis bar_chart res shown =
          (Return (),
           (shown ++ [st_warning [Txt "No keyword analysis data available."]])%list)
    | _ =>
        ∃ rk jk missing,
          extract_keywords w resume_text 20 = Return rk ∧
          extract_keywords w job_description 20 = Return jk ∧
          dict_get "keyword_analysis" res ≫= dict_get "missing_keywords" =
            Some (JStrs missing) ∧
          (∀ k, k ∈ missing ↔ k ∈ jk ∧ k ∉ rk) ∧
          display_keyword_analysis bar_chart res shown =
            (Return (),
             (shown ++
              [st_subheader [Txt "🎯 Found Keywords"];
               st_info [Txt "No matching keywords found."];
               st_subheader [Txt "❌ Missing Keywords"]] ++
              match missing with
              | [] => [st_success [Txt "All important keywords found!"]]
              | _ :: _ =>
                  (λ keyword, st_error [Txt "❌ "; Str (JStr keyword)])
                    <$> take 10 missing
              end)%list)
    end.
Proof.
  intros Hp Hreply.
  assert (∀ ai, parse_ai_analysis w content = Return ai →
    ∃ res,
      analyze_resume w resume_text job_description log =
        (Return res, (log ++ [prompt])%list) ∧
      ∃ rk jk missing,
        extract_keywords w resume_text 20 = Return rk ∧
        extract_keywords w job_description 20 = Return jk ∧
        dict_get "keyword_analysis" res ≫= dict_get "missing_keywords" =
          Some (JStrs missing) ∧
        (∀ k, k ∈ missing ↔ k ∈ jk ∧ k ∉ rk) ∧
        display_keyword_analysis bar_chart res shown =
          (Return (),
           (shown ++
            [st_subheader [Txt "🎯 Found Keywords"];
             st_info [Txt "No matching keywords found."];
             st_subheader [Txt "❌ Missing Keywords"]] ++
            match missing with
            | [] => [st_success [Txt "All important keywords found!"]]
            | _ :: _ =>
                (λ keyword, st_error [Txt "❌ "; Str (JStr keyword)])
                  <$> take 10 missing
            end)%list)) as Hreport.
  { intros ai Hparse.
    destruct (analyze_resume_replied w _ _ _ _ _ log Hp Hreply Hparse)
      as (rk & jk & score & Hrk & Hjk & ->).
    eexists. split; [done|]. exists rk, jk, (list_of_sub w jk rk).
    do 3 (split; [done|]). split.
    { intros k. rewrite (list_of_sub_perm w jk rk), elem_of_elements.
      set_solver. }
    unfold display_keyword_analysis, mbind, Logged_bind, quiet, emit.
    rewrite report_keyword_analysis, keyword_analysis_truthy.
    rewrite keyword_analysis_found, keyword_analysis_missing.
    cbn [negb py_truthy bool_decide decide_rel].
    rewrite bool_decide_false by (by intros ?).
    destruct (list_of_sub w jk rk) as [|k missing].
    - simpl. rewrite <- ?app_assoc. reflexivity.
    - unfold JStrs. cbn [py_truthy]. rewrite bool_decide_true by done.
      cbn [py_first_10]. rewrite (take_fmap_JStr 10 (k :: missing)).
      rewrite (for_each_emit (λ keyword, st_error [Txt "❌ "; Str keyword])).
      rewrite <- list_fmap_compose, <- !app_assoc. reflexivity. }
  pose proof (parse_ai_analysis_cases w content) as Hparse.
  destruct (json_loads w content) as [value| |msg]; [by eapply Hreport..|].
  rewrite (analyze_resume_parse_raised w _ _ _ _ _ log Hp Hreply Hparse).
  eexists. split; [done|]. reflexivity.
Qed.


(** X23: when [json.loads] raises [json.JSONDecodeError] on the reply to the
    suggestions prompt, [display_improvement_suggestions] shows the three
    entries of the fallback record under their headings, and no keyword
    optimization. *)
Theorem undecodable_suggestions_show_fallback
    (resume_text job_description prompt content : string) (analysis : json)
    (log : list string) (shown : list widget) :
  suggestions_prompt w resume_text job_description analysis = Return prompt →
  llm_invoke w prompt = Return content →
  json_loads w content = JSONDecodeError →
  ∃ res,
    get_improvement_suggestions w resume_text job_description analysis log =
      (Return res, (log ++ [prompt])%list) ∧
    display_improvement_suggestions res shown =
      (Return (),
       (shown ++
        [st_subheader [Txt "🚀 Immediate Improvements"];
         st_warning [Txt "**"; Str (JStr "General"); Txt "**: ";
                     Str (JStr "Response parsing issue"); Txt " → ";
                     Str (JStr "Manual review recommended")];
         st_subheader [Txt "🎨 Formatting Improvements"];
         st_info [Txt "🎨 "; Str (JStr "Review document formatting")];
         st_subheader [Txt "📝 Content Enhancements"];
         st_warning [Txt "📝 "; Str (JStr "Consider professional review")]])%list).
Proof.
  intros Hp Hreply Hloads. eexists. split.
  - unfold get_improvement_suggestions, eff_try, mbind, Eff_bind, lift, invoke.
    rewrite Hp, Hreply. unfold parse_suggestions. rewrite Hloads. reflexivity.
  - cbv -[app]. rewrite <- ?app_assoc. reflexivity.
Qed.

End Facts.
End DisplayFacts.

(** ** The runner *)

Module RunFacts.
Import Run DisplayFacts.

Lemma filter_printed (lines : list string) :
  filter (λ e, is_subprocess e = true) (Printed <$> lines) = [].
Proof.
  induction lines as [|line lines IH]; [done|].
  rewrite fmap_cons, filter_cons. by rewrite decide_False by done.
Qed.

Section Facts.
Context (env : Env).

(** What the import loop ends with: the packages whose import raised
    [ImportError], in order, when no import raised anything else; otherwise
    the exception of a package. *)
Lemma find_missing_spec (packages missing_packages : list string) :
  match find_missing env packages missing_packages with
  | Return missing =>
      missing =
        (missing_packages ++
         filter (λ package, __import__ env package = ImportError) packages)%list ∧
      ∀ package msg, package ∈ packages → __import__ env package ≠ ImportRaised msg
  | Raise msg =>
      ∃ package, package ∈ packages ∧ __import__ env package = ImportRaised msg
  end.
Proof.
  revert missing_packages.
  induction packages as [|p ps IH]; intros acc; simpl.
  - split; [by rewrite filter_nil, (app_nil_r acc)|]. by intros ? ? ?%elem_of_nil.
  - destruct (__import__ env p) as [| |msg] eqn:Hp.
    + specialize (IH acc). destruct (find_missing env ps acc) as [missing|msg].
      * destruct IH as [-> Hno]. split.
        -- rewrite filter_cons, decide_False by congruence. done.
        -- intros q msg [->|Hin]%elem_of_cons; [congruence|by apply Hno].
      * destruct IH as (q & Hin & Hq). exists q. split; [by right|done].
    + specialize (IH (acc ++ [p])%list).
      destruct (find_missing env ps (acc ++ [p])) as [missing|msg].
      * destruct IH as [-> Hno]. split.
        -- rewrite filter_cons, decide_True by done. by rewrite <- app_assoc.
        -- intros q msg [->|Hin]%elem_of_cons; [congruence|by apply Hno].
      * destruct IH as (q & Hin & Hq). exists q. split; [by right|done].
    + exists p. split; [by left|done].
Qed.

(** No package is missing exactly when every import returned. *)
Lemma find_missing_none_iff :
  find_missing env required_packages [] = Return []
  ↔ ∀ package, package ∈ required_packages → __import__ env package = Imported.
Proof.
  pose proof (find_missing_spec required_packages []) as Hspec.
  split.
  - intros Hnil package Hin. rewrite Hnil in Hspec.
    destruct Hspec as [Hf Hno]. simpl in Hf. symmetry in Hf.
    destruct (__import__ env package) as [| |msg] eqn:Himp; [done| |].
    + by destruct (filter_nil_not_elem_of _ _ package Hf Himp).
    + by destruct (Hno package msg Hin).
  - intros Hall.
    destruct (find_missing env required_packages []) as [missing|msg].
    + destruct Hspec as [-> _]. simpl. f_equal.
      destruct (filter _ required_packages) as [|package rest] eqn:Hf; [done|].
      assert (package ∈ filter (λ package, __import__ env package = ImportError)
                               required_packages) as Hin
        by (rewrite Hf; apply list_elem_of_here).
      apply list_elem_of_filter in Hin as [Herr Hin].
      rewrite (Hall package Hin) in Herr. done.
    + destruct Hspec as (package & Hin & Himp).
      rewrite (Hall package Hin) in Himp. done.
Qed.

(** The loop raises exactly when an import raises another exception than
    [ImportError]. *)
Lemma find_missing_raises_iff :
  (∃ msg, find_missing env required_packages [] = Raise msg)
  ↔ ∃ package msg, package ∈ required_packages
                   ∧ __import__ env package = ImportRaised msg.
Proof.
  pose proof (find_missing_spec required_packages []) as Hspec.
  split.
  - intros [msg Hraise]. rewrite Hraise in Hspec.
    destruct Hspec as (package & Hin & Himp). by eauto.
  - intros (package & msg & Hin & Himp).
    destruct (find_missing env required_packages []) as [missing|msg'];
      [|by eauto].
    destruct Hspec as [_ Hno]. by destruct (Hno package msg Hin).
Qed.

(** What [check_dependencies] returns and prints. *)
Lemma check_dependencies_run :
  match find_missing env required_packages [] with
  | Return missing =>
      ∃ printed,
        (∀ log, check_dependencies env log =
           (Return (bool_decide (missing = [])),
            (log ++ (Printed <$> printed))%list)) ∧
        (missing = [] → printed = []) ∧
        ∀ package, ("   - " ++ package)%string ∈ printed ↔ package ∈ missing
  | Raise msg => ∀ log, check_dependencies env log = (Raise msg, log)
  end.
Proof.
  unfold check_dependencies, mbind, Logged_bind, quiet.
  destruct (find_missing env required_packages []) as [[|package rest]|msg];
    [| |done].
  - exists []. split; [intros log; simpl; by rewrite (app_nil_r log)|].
    split; [done|]. intros package. by rewrite !elem_of_nil.
  - eexists ("❌ Missing required packages:"
             :: ((λ package, "   - " ++ package)%string <$> package :: rest)
             ++ [(nl ++ "💡 Install missing packages with:")%string;
                 "   pip install -r requirements.txt"]).
    split; [|split; [done|]].
    + intros log. unfold print, emit.
      rewrite (for_each_emit (λ package, Printed ("   - " ++ package))).
      rewrite <- !app_assoc. simpl. rewrite fmap_app, <- list_fmap_compose.
      reflexivity.
    + intros p. rewrite elem_of_cons, elem_of_app, list_elem_of_fmap.
      split.
      * intros [Hhead|[(q & Hq & Hin)|Htail]].
        -- discriminate Hhead.
        -- by apply (inj (String.app "   - ")) in Hq as ->.
        -- apply elem_of_cons in Htail as [Ht|Ht]; [discriminate Ht|].
           apply list_elem_of_singleton in Ht. discriminate Ht.
      * intros Hin. right. left. by exists p.
Qed.

(** [check_environment] only prints. *)
Lemma check_environment_run :
  ∃ ok printed, ∀ log,
    check_environment env log = (Return ok, (log ++ (Printed <$> printed))%list).
Proof.
  unfold check_environment.
  destruct (getenv_key env) as [[|c key]|].
  - exists false. eexists [_; _; _; _; _]. intros log.
    unfold mbind, Logged_bind, print, emit. simpl.
    rewrite <- !app_assoc. reflexivity.
  - exists true, []. intros log. simpl. by rewrite (app_nil_r log).
  - exists false. eexists [_; _; _; _; _]. intros log.
    unfold mbind, Logged_bind, print, emit. simpl.
    rewrite <- !app_assoc. reflexivity.
Qed.

(** X24: [check_dependencies] raises exactly when the import of a required
    package raises another exception than [ImportError], with the exception
    of such a package and without printing.  Otherwise it returns [True]
    exactly when every required package was imported, and then prints
    nothing; when it returns [False], the lines ["   - package"] that it
    prints name exactly the required packages whose import raised
    [ImportError].  (Writing to the standard output is taken to succeed.) *)
Theorem check_dependencies_outcome (log : list event) :
  ∃ outcome printed,
    check_dependencies env log =
      (outcome, (log ++ (Printed <$> printed))%list) ∧
    ((∃ msg, outcome = Raise msg) ↔
       ∃ package msg, package ∈ required_packages
                      ∧ __import__ env package = ImportRaised msg) ∧
    match outcome with
    | Return ok =>
        (ok = true ↔
           ∀ package, package ∈ required_packages →
                      __import__ env package = Imported) ∧
        (ok = true → printed = []) ∧
        ∀ package, ("   - " ++ package)%string ∈ printed ↔
          package ∈ required_packages ∧ __import__ env package = ImportError
    | Raise msg =>
        printed = [] ∧
        ∃ package, package ∈ required_packages
                   ∧ __import__ env package = ImportRaised msg
    end.
Proof.
  pose proof check_dependencies_run as Hrun.
  pose proof (find_missing_spec required_packages []) as Hspec.
  pose proof find_missing_none_iff as Hnone.
  pose proof find_missing_raises_iff as Hraises.
  destruct (find_missing env required_packages []) as [missing|msg].
  - destruct Hrun as (printed & Hrun & Hnil & Hlines).
    destruct Hspec as [Hmissing _]. simpl in Hmissing.
    eexists _, printed. split; [apply Hrun|]. split; [|split; [|split]].
    + rewrite <- Hraises. split; intros [? [=]].
    + rewrite bool_decide_eq_true, <- Hnone. split; congruence.
    + intros Hok%bool_decide_eq_true. by apply Hnil.
    + intros package. rewrite Hlines, Hmissing, list_elem_of_filter. tauto.
  - eexists _, []. split; [simpl; rewrite (app_nil_r log); apply Hrun|].
    split; [|done]. rewrite <- Hraises. split; by eauto.
Qed.

(** The events of [main]: lines, then the Streamlit server and more lines
    when the checks let it start. *)
Lemma main_run (log : list event) :
  ∃ before after,
    main env log =
      (match find_missing env required_packages [] with
       | Raise msg => if app_exists env then Raise msg else Return ()
       | Return _ => Return ()
       end,
       (log ++ (Printed <$> before) ++
        match find_missing env required_packages [] with
        | Return [] =>
            if app_exists env
            then Subprocess (streamlit_argv env) :: (Printed <$> after)
            else []
        | _ => []
        end)%list).
Proof.
  pose proof check_dependencies_run as Hdeps.
  destruct check_environment_run as (env_ok & envs & Henv).
  unfold main, mbind, Logged_bind, print, emit.
  destruct (app_exists env); cbn [negb].
  2:{ eexists [_; _; _]. exists [].
      destruct (find_missing env required_packages []) as [[|? ?]|?];
        simpl; rewrite <- !app_assoc; reflexivity. }
  destruct (find_missing env required_packages []) as [missing|msg].
  2:{ rewrite Hdeps. eexists [_; _; _]. exists [].
      simpl. rewrite <- !app_assoc. reflexivity. }
  destruct Hdeps as (deps & Hdeps & _). rewrite Hdeps.
  destruct missing as [|package rest].
  2:{ rewrite bool_decide_false by done. cbn [negb].
      eexists ([_; _; _] ++ deps)%list. exists [].
      rewrite app_nil_r, fmap_app, <- !app_assoc. simpl. reflexivity. }
  rewrite bool_decide_true by done. cbn [negb].
  rewrite Henv.
  assert (∃ warned, ∀ log',
            (if negb env_ok
             then λ log0 : list event,
               let (p, log'0) :=
                 (Return (),
                  (log0 ++ [Printed "⚠️  Warning: Environment issues detected"])%list)
               in match p with
                  | Return _ =>
                      (Return (),
                       (log'0 ++
                        [Printed
                           "   The app may not work properly without proper configuration"])%list)
                  | Raise msg => (Raise msg, log'0)
                  end
             else λ log0 : list event,
               (Return (), (log0 ++ [Printed "✅ Environment OK"])%list)) log'
            = (Return (), (log' ++ (Printed <$> warned))%list)) as [warned ->].
  { destruct env_ok; [eexists [_]|eexists [_; _]]; intros log'; simpl;
      rewrite <- ?app_assoc; reflexivity. }
  destruct (subprocess_run env (streamlit_argv env)) as [| |msg].
  - eexists ([_; _; _] ++ deps ++ [_; _] ++ envs ++ warned ++ [_; _; _; _])%list. exists [].
    rewrite !fmap_app, <- !app_assoc. simpl. reflexivity.
  - eexists ([_; _; _] ++ deps ++ [_; _] ++ envs ++ warned ++ [_; _; _; _])%list. eexists [_].
    rewrite !fmap_app, <- !app_assoc. simpl. reflexivity.
  - eexists ([_; _; _] ++ deps ++ [_; _] ++ envs ++ warned ++ [_; _; _; _])%list. eexists [_].
    rewrite !fmap_app, <- !app_assoc. simpl. reflexivity.
Qed.

(** X25: [main] starts the Streamlit server exactly when [app.py] exists and
    every required package was imported.  It starts it at most once, with
    the fixed command line, and whether the API key is set or not.  It
    raises exactly when [app.py] exists and the import of a required package
    raises another exception than [ImportError], which [check_dependencies]
    does not catch and [main] calls outside its [try].  (Writing to the
    standard output is taken to succeed.) *)
Theorem main_starts_streamlit_iff (log : list event) :
  ∃ outcome events,
    main env log = (outcome, (log ++ events)%list) ∧
    (Subprocess (streamlit_argv env) ∈ events ↔
       app_exists env = true ∧
       ∀ package, package ∈ required_packages →
                  __import__ env package = Imported) ∧
    (∀ argv, Subprocess argv ∈ events → argv = streamlit_argv env) ∧
    (length (filter (λ e, is_subprocess e = true) events) ≤ 1)%nat ∧
    ((∃ msg, outcome = Raise msg) ↔
       app_exists env = true ∧
       ∃ package msg, package ∈ required_packages
                      ∧ __import__ env package = ImportRaised msg).
Proof.
  destruct (main_run log) as (before & after & Hrun).
  do 2 eexists. split; [exact Hrun|].
  assert (∀ argv (lines : list string),
            Subprocess argv ∉ Printed <$> lines) as Hno.
  { intros argv lines (line & [=] & _)%list_elem_of_fmap. }
  rewrite <- find_missing_none_iff, <- find_missing_raises_iff.
  destruct (find_missing env required_packages []) as [[|package rest]|msg];
    destruct (app_exists env).
  - rewrite filter_app, filter_printed, filter_cons, filter_printed.
    split; [|split; [|split; [simpl; lia|]]].
    + split; [done|]. intros _. apply elem_of_app. right. apply list_elem_of_here.
    + intros argv [?%Hno|Hin]%elem_of_app; [done|].
      apply elem_of_cons in Hin as [[= ->]|?%Hno]; done.
    + split; [by intros [? [=]]|by intros [_ [? [=]]]].
  - rewrite app_nil_r, filter_printed. split; [|split; [|split; [simpl; lia|]]].
    + split; [by intros ?%Hno|by intros [[=] _]].
    + by intros argv ?%Hno.
    + split; [by intros [? [=]]|by intros [[=] _]].
  - rewrite app_nil_r, filter_printed. split; [|split; [|split; [simpl; lia|]]].
    + split; [by intros ?%Hno|by intros [_ [=]]].
    + by intros argv ?%Hno.
    + split; [by intros [? [=]]|by intros [_ [? [=]]]].
  - rewrite app_nil_r, filter_printed. split; [|split; [|split; [simpl; lia|]]].
    + split; [by intros ?%Hno|by intros [[=] _]].
    + by intros argv ?%Hno.
    + split; [by intros [? [=]]|by intros [[=] _]].
  - rewrite app_nil_r, filter_printed. split; [|split; [|split; [simpl; lia|]]].
    + split; [by intros ?%Hno|by intros [_ [=]]].
    + by intros argv ?%Hno.
    + split; [by eauto|by eauto].
  - rewrite app_nil_r, filter_printed. split; [|split; [|split; [simpl; lia|]]].
    + split; [by intros ?%Hno|by intros [[=] _]].
    + by intros argv ?%Hno.
    + split; [by intros [? [=]]|by intros [[=] _]].
Qed.

End Facts.
End RunFacts.

(** ** The theorems above at concrete inputs *)

Module MoreExamples.
Import PDFParser ResumeAnalyzer Keywords Pages Display.
Import RankingFacts SplitFacts OrchestratorFacts PagesFacts ProcessFacts DisplayFacts.

(** [extract_keywords_prefix] for the job description of [Demo]: the 2
    keywords are the first 2 of the 5. *)
Lemma extract_keywords_prefix_witness :
  2 ≤ 5 ∧
  ∃ kws, extract_keywords Demo.wbad Demo.job 5 = Return kws ∧
    extract_keywords Demo.wbad Demo.job 2 = Return (take (Z.to_nat 2) kws).
Proof.
  split; [lia|]. apply (extract_keywords_prefix Demo.wbad Demo.job 2 5). lia.
Defined.

(** [split_path_keywords_are_words] in the world of [Demo], where the
    tokenizer has no data. *)
Lemma split_path_keywords_are_words_witness :
  isspace Demo.wbad " "%char = true ∧
  word_tokenize Demo.wbad (sub_nonword Demo.wbad (lower Demo.wbad Demo.job)) =
    Raise "Resource punkt not found." ∧
  ∃ kws, extract_keywords Demo.wbad Demo.job 20 = Return kws ∧
    ∀ k, k ∈ kws → all_chars (isword Demo.wbad) k = true.
Proof.
  split; [reflexivity|]. split; [reflexivity|].
  apply (split_path_keywords_are_words Demo.wbad Demo.job
           "Resource punkt not found." 20); reflexivity.
Defined.

(** [analysis_without_embedding_model] in the world of [Demo], which has no
    embedding model. *)
Lemma analysis_without_embedding_model_witness :
  json_loads Demo.wbad "not json" = JSONDecodeError ∧
  sentence_model Demo.wbad = None ∧
  ∃ res,
    analyze_resume Demo.wbad Demo.resume Demo.job [] =
      (Return res, ([] ++ [Demo.prompt_for Demo.resume Demo.job])%list) ∧
    dict_has "error" res = false ∧
    dict_get "semantic_similarity" res = Some (JFloat 0).
Proof.
  split; [reflexivity|]. split; [reflexivity|].
  apply (analysis_without_embedding_model Demo.wbad Demo.resume Demo.job
           (Demo.prompt_for Demo.resume Demo.job) "not json" []);
    [reflexivity|reflexivity|discriminate|by left].
Defined.

(** [non_object_reply_breaks_gauge] for the reply [[]]. *)
Lemma non_object_reply_breaks_gauge_witness :
  json_loads (Demo.world (Return "[]")) "[]" = Loaded (JArr []) ∧
  is_dict (JArr []) = false ∧
  ∃ res msg,
    analyze_resume (Demo.world (Return "[]")) Demo.resume Demo.job [] =
      (Return res, ([] ++ [Demo.prompt_for Demo.resume Demo.job])%list) ∧
    dict_has "error" res = false ∧
    UI.overall_score_gauge (Demo.world (Return "[]")) res = Raise msg.
Proof.
  split; [reflexivity|]. split; [reflexivity|].
  apply (non_object_reply_breaks_gauge (Demo.world (Return "[]")) Demo.resume
           Demo.job (Demo.prompt_for Demo.resume Demo.job) "[]" (JArr []) []);
    reflexivity.
Defined.

(** [blank_pages_do_not_matter] for a file of three pages, the second one
    blank, and the file of the other two. *)
Lemma blank_pages_do_not_matter_witness :
  extract_text_pymupdf (Cases.paged_world (Return "{}"))
    (Demo.pdf "Python developer|   |with React and AWS") =
  extract_text_pymupdf (Cases.paged_world (Return "{}"))
    (Demo.pdf "Python developer|with React and AWS").
Proof.
  apply (blank_pages_do_not_matter (Cases.paged_world (Return "{}"))
           (Demo.pdf "Python developer|   |with React and AWS")
           (Demo.pdf "Python developer|with React and AWS")
           [Return "Python developer"; Return "   "; Return "with React and AWS"]
           [Return "Python developer"; Return "with React and AWS"]);
    reflexivity.
Defined.

(** [unreadable_page_fails_extraction] for a file whose second page cannot
    be read. *)
Lemma unreadable_page_fails_extraction_witness :
  ∃ v r,
    validate_pdf (Cases.paged_world (Return "{}"))
      (Demo.pdf "Experienced Python developer|?") = Return v ∧
    is_valid v = true ∧
    extract_text_pymupdf (Cases.paged_world (Return "{}"))
      (Demo.pdf "Experienced Python developer|?") = Return EmptyString ∧
    extract_text (Cases.paged_world (Return "{}"))
      (Demo.pdf "Experienced Python developer|?") = Return r ∧
    success r = false ∧ text r = EmptyString ∧
    error r = Some "No text extracted or text too short" ∧
    page_count r = Z.of_nat (length [Return "Experienced Python developer";
                                     Raise "cannot read page" : pyresult string]).
Proof.
  apply (unreadable_page_fails_extraction (Cases.paged_world (Return "{}"))
           (Demo.pdf "Experienced Python developer|?")
           [Return "Experienced Python developer"; Raise "cannot read page"]);
    reflexivity.
Defined.

(** [extract_text_success_invariants] for the resume of [Demo]. *)
Lemma extract_text_success_invariants_witness :
  ∃ r,
    extract_text Demo.wbad (Demo.pdf Demo.resume) = Return r ∧
    success r = true ∧
    ∃ doc,
      fitz_open Demo.wbad (pdf_bytes (Demo.pdf Demo.resume)) = Return doc ∧
      existsb raises doc = false ∧
      page_count r = Z.of_nat (length doc) ∧ 1 ≤ page_count r ∧
      text r = strip (isspace Demo.wbad) (joined Demo.wbad (readable doc)) ∧
      strip (isspace Demo.wbad) (text r) = text r ∧
      method_used r = "pymupdf".
Proof.
  eexists. split; [vm_compute; reflexivity|]. split; [reflexivity|].
  apply (extract_text_success_invariants Demo.wbad (Demo.pdf Demo.resume));
    reflexivity.
Defined.

(** [no_model_call_before_checks] for an upload that is no PDF. *)
Lemma no_model_call_before_checks_witness :
  fitz_open Demo.wbad (list_byte_of_string "plain text") =
    Raise "Failed to open stream" ∧
  ∃ error,
    App.process_resume_analysis Demo.wbad
      {| App.name := "notes.pdf"; App.content := list_byte_of_string "plain text" |}
      Demo.job [] = (Return (App.Failure error), []).
Proof.
  split; [reflexivity|].
  apply (no_model_call_before_checks Demo.wbad
           {| App.name := "notes.pdf";
              App.content := list_byte_of_string "plain text" |} Demo.job []).
  right. left. by eexists.
Defined.

(** [process_success_facts] for the resume and the job description of
    [Demo], with a reply that is not JSON. *)
Lemma process_success_facts_witness :
  ∃ resume_text analysis suggestions file_info log',
    App.process_resume_analysis Demo.wbad Demo.cv Demo.job [] =
      (Return (App.Success resume_text analysis suggestions file_info), log') ∧
    10 < len resume_text ∧
    dict_has "error" analysis = false ∧
    App.info_file_size file_info = Z.of_nat (length (App.content Demo.cv)) ∧
    1 ≤ App.info_page_count file_info ∧
    App.info_method_used file_info = "pymupdf" ∧
    ∃ prompt more,
      match_prompt resume_text Demo.job = Return prompt ∧
      analyze_resume Demo.wbad resume_text Demo.job [] =
        (Return analysis, ([] ++ [prompt])%list) ∧
      log' = ([] ++ prompt :: more)%list ∧ (length more ≤ 1)%nat.
Proof.
  do 5 eexists. split; [vm_compute; reflexivity|].
  eapply (process_success_facts Demo.wbad Demo.cv Demo.job []).
  vm_compute; reflexivity.
Defined.

(** [request_fails_iff_analysis_raised] for a reply of 5000 opening
    brackets, on which [json.loads] raises a [RecursionError]. *)
Lemma request_fails_iff_analysis_raised_witness :
  App.process_resume_analysis Demo.wdeep Demo.cv Demo.job [] =
    (Return (App.Failure ("Analysis failed: " ++ Demo.recursion_error)),
     ([] ++ [Demo.prompt_for Demo.resume Demo.job])%list) ∧
  llm_invoke Demo.wdeep (Demo.prompt_for Demo.resume Demo.job) =
    Return Demo.deep_reply ∧
  json_loads Demo.wdeep Demo.deep_reply = OtherException Demo.recursion_error ∧
  ((∃ error, App.Failure ("Analysis failed: " ++ Demo.recursion_error) =
             App.Failure error) ↔
     (∃ msg, llm_invoke Demo.wdeep (Demo.prompt_for Demo.resume Demo.job) =
             Raise msg)
     ∨ (∃ content msg,
          llm_invoke Demo.wdeep (Demo.prompt_for Demo.resume Demo.job) =
            Return content
          ∧ json_loads Demo.wdeep content = OtherException msg)).
Proof.
  split; [vm_compute; reflexivity|]. split; [reflexivity|].
  split; [vm_compute; reflexivity|].
  apply (request_fails_iff_analysis_raised Demo.wdeep Demo.cv Demo.job [] []
           (Demo.prompt_for Demo.resume Demo.job)).
  vm_compute; reflexivity.
Defined.

(** [keyword_display_shows_no_found_keyword] for the resume and the job
    description of [Demo], which share keywords. *)
Lemma keyword_display_shows_no_found_keyword_witness :
  json_loads Demo.wbad "not json" = JSONDecodeError ∧
  ∃ res,
    analyze_resume Demo.wbad Demo.resume Demo.job [] =
      (Return res, ([] ++ [Demo.prompt_for Demo.resume Demo.job])%list) ∧
    ∃ rk jk missing,
      extract_keywords Demo.wbad Demo.resume 20 = Return rk ∧
      extract_keywords Demo.wbad Demo.job 20 = Return jk ∧
      dict_get "keyword_analysis" res ≫= dict_get "missing_keywords" =
        Some (JStrs missing) ∧
      (∀ k, k ∈ missing ↔ k ∈ jk ∧ k ∉ rk) ∧
      display_keyword_analysis (λ _, Return ()) res [] =
        (Return (),
         ([] ++
          [st_subheader [Txt "🎯 Found Keywords"];
           st_info [Txt "No matching keywords found."];
           st_subheader [Txt "❌ Missing Keywords"]] ++
          match missing with
          | [] => [st_success [Txt "All important keywords found!"]]
          | _ :: _ =>
              (λ keyword, st_error [Txt "❌ "; Str (JStr keyword)])
                <$> take 10 missing
          end)%list).
Proof.
  split; [reflexivity|].
  apply (keyword_display_shows_no_found_keyword Demo.wbad (λ _, Return ())
           Demo.resume Demo.job (Demo.prompt_for Demo.resume Demo.job)
           "not json" [] []); reflexivity.
Defined.


(** [undecodable_suggestions_show_fallback] for the reply [not json]. *)
Lemma undecodable_suggestions_show_fallback_witness :
  ∃ prompt,
    suggestions_prompt Demo.wbad Demo.resume Demo.job (JObj []) = Return prompt ∧
    json_loads Demo.wbad "not json" = JSONDecodeError ∧
    ∃ res,
      get_improvement_suggestions Demo.wbad Demo.resume Demo.job (JObj []) [] =
        (Return res, ([] ++ [prompt])%list) ∧
      display_improvement_suggestions res [] =
        (Return (),
         ([] ++
          [st_subheader [Txt "🚀 Immediate Improvements"];
           st_warning [Txt "**"; Str (JStr "General"); Txt "**: ";
                       Str (JStr "Response parsing issue"); Txt " → ";
                       Str (JStr "Manual review recommended")];
           st_subheader [Txt "🎨 Formatting Improvements"];
           st_info [Txt "🎨 "; Str (JStr "Review document formatting")];
           st_subheader [Txt "📝 Content Enhancements"];
           st_warning [Txt "📝 "; Str (JStr "Consider professional review")]])%list).
Proof.
  eexists. split; [vm_compute; reflexivity|]. split; [reflexivity|].
  apply (undecodable_suggestions_show_fallback Demo.wbad Demo.resume Demo.job _
           "not json" (JObj []) [] []); reflexivity.
Defined.

(** A reply that is a JSON list: the request succeeds, and [main] raises out
    of [display_results]. *)
Example main_raises_on_list_reply :
  ∃ sent,
    App.main (Demo.world (Return "[]")) true (Some Demo.cv) Demo.job [] =
      (Raise "'list' object has no attribute 'get'", sent) ∧
    length sent = 2%nat.
Proof. eexists. split; [vm_compute; reflexivity|]. reflexivity. Qed.

End MoreExamples.
